(** * Voice dialogue control of the research copilot front end

    The repository has two voice surfaces, both React function components:

    - [VoiceInterface]     (the "Professional Voice Interface" component),
    - [RealTimeVoiceChat]  (the "Real-time Voice Chat" component).

    Each is embedded below as a module.  A component's handlers read the
    React state variables of the render in which they were created (their
    closure) and write through the state setters and the platform objects
    held in refs.  Accordingly every handler takes the closure it reads as
    an explicit argument and transforms a store that holds the React state,
    the recognition and synthesis objects, and the log of platform calls.

    The pure parts of the agent status panel ([AgentStatusIndicator]) and of
    what the two voice components display follow the components. *)

From Stdlib Require Import ZArith NArith List String Ascii Bool Lia DecimalString.
From Stdlib.Floats Require Import SpecFloat.
From stdpp Require Import base decidable list.
Import ListNotations.

Set Default Proof Using "Type".
Local Open Scope N_scope.

(** ** JavaScript strings

    A JavaScript string is a sequence of UTF-16 code units. *)

Definition jsstring := list N.

(** A source literal (all literals of the two components are ASCII). *)
Definition lit (s : string) : jsstring :=
  map N_of_ascii (list_ascii_of_string s).

Definition str_eqb (a b : jsstring) : bool := bool_decide (a = b).

(** LineTerminator code units: what [.] refuses to match. *)
Definition is_line_terminator (c : N) : bool :=
  (c =? 10) || (c =? 13) || (c =? 8232) || (c =? 8233).

(** WhiteSpace and LineTerminator code units: the class [\s], which is also
    what [String.prototype.trim] removes. *)
Definition is_space (c : N) : bool :=
  ((9 <=? c) && (c <=? 13)) || (c =? 32) || (c =? 160) || (c =? 5760)
  || ((8192 <=? c) && (c <=? 8202)) || (c =? 8232) || (c =? 8233)
  || (c =? 8239) || (c =? 8287) || (c =? 12288) || (c =? 65279).

Fixpoint trimStart (s : jsstring) : jsstring :=
  match s with
  | c :: s' => if is_space c then trimStart s' else s
  | [] => []
  end.

Definition trimEnd (s : jsstring) : jsstring := rev (trimStart (rev s)).

Definition trim (s : jsstring) : jsstring := trimEnd (trimStart s).

Definition is_empty (s : jsstring) : bool :=
  match s with [] => true | _ => false end.

Fixpoint startsWith (p s : jsstring) : bool :=
  match p, s with
  | [], _ => true
  | a :: p', b :: s' => (a =? b) && startsWith p' s'
  | _ :: _, [] => false
  end.

(** Decimal rendering of a non-negative integer inside a template literal. *)
Definition decimal (n : N) : jsstring :=
  lit (NilEmpty.string_of_uint (N.to_uint n)).

(** ** The regular expressions of [speakText]

    [text.replace(/d(.*?)d/g, '$1')] for a literal delimiter [d]: the scan
    moves left to right; where [d] opens, the lazy group grows one code unit
    at a time, never over a line terminator, until [d] closes. *)

Fixpoint lazy_until (d s : jsstring) : option (jsstring * jsstring) :=
  if startsWith d s then Some ([], drop (length d) s)
  else match s with
       | [] => None
       | c :: s' =>
           if is_line_terminator c then None
           else match lazy_until d s' with
                | Some (inner, rest) => Some (c :: inner, rest)
                | None => None
                end
       end.

(** [skip] counts the code units still to pass over because an earlier
    match consumed them. *)
Fixpoint strip_pair_from (d : jsstring) (skip : nat) (s : jsstring) : jsstring :=
  match s with
  | [] => []
  | c :: s' =>
      match skip with
      | S k => strip_pair_from d k s'
      | O =>
          if startsWith d s then
            match lazy_until d (drop (length d) s) with
            | Some (inner, _) =>
                inner ++ strip_pair_from d (length d + length inner + length d - 1) s'
            | None => c :: strip_pair_from d 0 s'
            end
          else c :: strip_pair_from d 0 s'
      end
  end.

Definition strip_pair (d s : jsstring) : jsstring := strip_pair_from d 0 s.

(** [/#{1,6}\s/]: exactly [n] hash signs followed by one [\s]. *)
Fixpoint hashes_space (n : nat) (s : jsstring) : bool :=
  match n, s with
  | O, c :: _ => is_space c
  | S n', c :: s' => (c =? 35) && hashes_space n' s'
  | _, [] => false
  end.

(** The quantifier is greedy: six hash signs are tried first, then fewer. *)
Definition header_match (s : jsstring) : option nat :=
  find (fun n => hashes_space n s) [6; 5; 4; 3; 2; 1]%nat.

Fixpoint strip_headers_from (skip : nat) (s : jsstring) : jsstring :=
  match s with
  | [] => []
  | c :: s' =>
      match skip with
      | S k => strip_headers_from k s'
      | O =>
          match header_match s with
          | Some n => strip_headers_from n s'
          | None => c :: strip_headers_from 0 s'
          end
      end
  end.

Definition strip_headers (s : jsstring) : jsstring := strip_headers_from 0 s.

(** [text.replace(/p+/g, r)] for a character class [p]: every maximal run of
    [p] becomes one [r].  [inrun] tells that the run has been replaced. *)
Fixpoint replace_runs (p : N -> bool) (r : jsstring) (inrun : bool)
    (s : jsstring) : jsstring :=
  match s with
  | [] => []
  | c :: s' =>
      if p c then
        if inrun then replace_runs p r true s'
        else r ++ replace_runs p r true s'
      else c :: replace_runs p r false s'
  end.

Definition cleanText (text : jsstring) : jsstring :=
  let t1 := strip_pair (lit "**") text in           (* markdown bold *)
  let t2 := strip_pair (lit "*") t1 in              (* markdown italic *)
  let t3 := strip_pair (lit "`") t2 in              (* code *)
  let t4 := strip_headers t3 in                     (* markdown headers *)
  let t5 := replace_runs (N.eqb 10) (lit ". ") false t4 in
  let t6 := replace_runs is_space (lit " ") false t5 in
  trim t6.

(** ** JavaScript values

    What [response.json()] resolves to, and what an untyped ([any]) binding
    may hold at run time.  Numbers are IEEE 754 doubles. *)

#[warnings="-register-all"]
Inductive JSValue :=
| JUndefined
| JNull
| JBool (b : bool)
| JNum (x : spec_float)
| JStr (s : jsstring)
| JArr (items : list JSValue)
| JObj (fields : list (jsstring * JSValue)).

(** ToBoolean. *)
Definition truthy (v : JSValue) : bool :=
  match v with
  | JUndefined | JNull => false
  | JBool b => b
  | JNum (S754_zero _) | JNum S754_nan => false
  | JNum _ => true
  | JStr s => negb (is_empty s)
  | JArr _ | JObj _ => true
  end.

(** Own property of a parsed JSON object; the first binding of a key is the
    one the object holds. *)
Fixpoint own_property (key : jsstring) (fields : list (jsstring * JSValue)) : JSValue :=
  match fields with
  | [] => JUndefined
  | (k, v) :: rest => if str_eqb k key then v else own_property key rest
  end.

(** The errors the engine and the platform raise themselves. *)
Inductive EngineError :=
| ReadOfNullish (property : jsstring)     (* TypeError: [null.results] *)
| NotAFunction (property : jsstring)      (* TypeError: [(42).trim()] *)
| InvalidState.                           (* DOMException: [start()] on a started recognizer *)

(** A thrown value, or the reason of a rejected promise. *)
Inductive Thrown :=
| ErrorObj (message : jsstring)           (* an instance of Error *)
| Raised (e : EngineError)                (* an instance of Error raised by the engine *)
| NotAnError.                             (* any other thrown value *)

Inductive Completion (A : Type) :=
| Normal (a : A)
| Throw (e : Thrown).
Arguments Normal {A} a.
Arguments Throw {A} e.

(** [v.key] for the keys the components read ("results" and "summary",
    which no built-in prototype defines). *)
Definition get (v : JSValue) (key : jsstring) : Completion JSValue :=
  match v with
  | JUndefined | JNull => Throw (Raised (ReadOfNullish key))
  | JObj fields => Normal (own_property key fields)
  | _ => Normal JUndefined
  end.

(** [v?.key]. *)
Definition get_optional (v : JSValue) (key : jsstring) : Completion JSValue :=
  match v with
  | JUndefined | JNull => Normal JUndefined
  | _ => get v key
  end.

(** [a || b]. *)
Definition js_or (a b : JSValue) : JSValue := if truthy a then a else b.

(** [text.trim()] on an untyped binding. *)
Definition call_trim (text : JSValue) : Completion jsstring :=
  match text with
  | JStr s => Normal (trim s)
  | JUndefined | JNull => Throw (Raised (ReadOfNullish (lit "trim")))
  | _ => Throw (Raised (NotAFunction (lit "trim")))
  end.

(** [error instanceof Error ? error.message : 'Unknown error'].  The text of
    an engine-raised error is implementation defined: [engine] gives it. *)
Definition error_message (engine : EngineError -> jsstring) (error : Thrown) : jsstring :=
  match error with
  | ErrorObj message => message
  | Raised e => engine e
  | NotAnError => lit "Unknown error"
  end.

(** ** Handlers as store transformers that may throw

    A thrown exception keeps the writes made before it. *)

Definition Act (St A : Type) : Type := St -> St * Completion A.

#[global] Instance act_ret {St} : MRet (Act St) := fun A a s => (s, Normal a).

#[global] Instance act_bind {St} : MBind (Act St) :=
  fun A B f m s =>
    match m s with
    | (s', Normal a) => f a s'
    | (s', Throw e) => (s', Throw e)
    end.

Definition reads {St A} (f : St -> A) : Act St A := fun s => (s, Normal (f s)).
Definition modify {St} (f : St -> St) : Act St unit := fun s => (f s, Normal tt).
Definition throw {St A} (e : Thrown) : Act St A := fun s => (s, Throw e).
Definition lift {St A} (c : Completion A) : Act St A := fun s => (s, c).

Definition try_catch {St A} (body : Act St A) (handler : Thrown -> Act St A) : Act St A :=
  fun s =>
    match body s with
    | (s', Throw e) => handler e s'
    | done => done
    end.

Definition try_finally {St A} (body : Act St A) (final : Act St unit) : Act St A :=
  fun s =>
    let (s', r) := body s in
    match final s' with
    | (s'', Normal _) => (s'', r)
    | (s'', Throw e) => (s'', Throw e)
    end.

(** The store a handler leaves behind; an exception that escapes an event
    handler or an async function is dropped by the runtime. *)
Definition exec {St A} (a : Act St A) (s : St) : St := fst (a s).
Definition result {St A} (a : Act St A) (s : St) : Completion A := snd (a s).

(** ** Platform objects *)

Record Voice := { voice_name : jsstring; voice_lang : jsstring }.

Record Utterance := {
  utt_text : jsstring;
  utt_voice : option Voice;
  utt_rate : spec_float;
  utt_pitch : spec_float;
  utt_volume : spec_float }.

(** The doubles nearest to the literals [0.9], [0.8] and [1.0]. *)
Definition double_0_9 : spec_float := S754_finite false 8106479329266893 (-53).
Definition double_0_8 : spec_float := S754_finite false 7205759403792794 (-53).
Definition double_1_0 : spec_float := S754_finite false 4503599627370496 (-52).

(** A SpeechRecognition object: [rec_started] holds from a successful
    [start()] until the platform delivers the end event. *)
Record Recognition := { rec_started : bool }.

(** The SpeechSynthesis object: utterances queued by [speak], the first one
    being the one that plays; [cancel] empties the queue. *)
Record Synthesis := { synth_queue : list Utterance; synth_voices : list Voice }.

(** Calls made to the platform, in the order they are made. *)
Inductive Call :=
| RecognitionStart
| RecognitionStop
| SynthCancel
| SynthSpeak (u : Utterance)
| Fetch (url : jsstring) (body : JSValue)     (* [body] is the object given to JSON.stringify *)
| GetUserMedia
| SetTimeout (ms : N)
| ConsoleError.

(** The settled [fetch] promise.  [json] is what [response.json()] settles to. *)
Record Response := {
  status : N;
  statusText : jsstring;
  json : Completion JSValue }.

Definition ok (r : Response) : bool := (200 <=? status r) && (status r <=? 299).

Inductive FetchOutcome :=
| Rejected (reason : Thrown)       (* network failure, timeout of the connection *)
| Resolved (response : Response).

Definition await_fetch {St} (o : FetchOutcome) : Act St Response :=
  match o with
  | Rejected reason => throw reason
  | Resolved response => mret response
  end.

(** [result.results?.summary || result.summary || fallback] *)
Definition summary_or (result : JSValue) (fallback : jsstring) : Completion JSValue :=
  match get result (lit "results") with
  | Throw e => Throw e
  | Normal results =>
      match get_optional results (lit "summary") with
      | Throw e => Throw e
      | Normal s1 =>
          if truthy s1 then Normal s1
          else match get result (lit "summary") with
               | Throw e => Throw e
               | Normal s2 => Normal (js_or s2 (JStr fallback))
               end
      end
  end.

(** One recognition result: [results[i][0].transcript] and [results[i].isFinal]. *)
Record SpeechResult := { transcript : jsstring; isFinal : bool }.

Definition finalTranscript (results : list SpeechResult) : jsstring :=
  concat (map transcript (filter (fun r => isFinal r) results)).

Definition interimTranscript (results : list SpeechResult) : jsstring :=
  concat (map transcript (filter (fun r => negb (isFinal r)) results)).

(** [array.slice(-n)] *)
Definition slice_last {A} (n : nat) (l : list A) : list A := drop (length l - n) l.

(** ** Which render a platform callback sees

    Both components install the recognition callbacks once, from an effect
    with an empty dependency list, so the [processUserInput] /
    [processVoiceInput] that [onresult] calls is the one of the first
    render: [Mount].  [Latest] is the reading in which the callback is the
    one of the render on screen when the event arrives.  Click handlers are
    always those of the render on screen. *)

Inductive Binding := Mount | Latest.

(** ** The VoiceInterface component *)

Module VoiceInterface.

Inductive EntryType := user | assistant.

Record ConversationEntry := {
  entry_id : jsstring;
  entry_type : EntryType;
  entry_text : JSValue;                 (* declared [string]; the answer is untyped *)
  entry_timestamp : N;
  entry_isProcessing : option bool }.   (* [isProcessing?: boolean] *)

(** What a handler created in some render reads from that render. *)
Record Closure := {
  c_sessionId : jsstring;
  c_isListening : bool;
  c_isProcessing : bool;
  c_isSpeaking : bool;
  c_conversation : list ConversationEntry;
  c_selectedVoice : option Voice;
  c_speechRate : spec_float;
  c_speechVolume : spec_float }.

Record Store := {
  isListening : bool;
  isProcessing : bool;
  isSpeaking : bool;
  currentTranscript : jsstring;
  conversation : list ConversationEntry;
  selectedVoice : option Voice;
  speechRate : spec_float;
  speechVolume : spec_float;
  error : jsstring;
  permissionGranted : bool;
  recognitionRef : option Recognition;
  synthRef : option Synthesis;
  calls : list Call }.

(** The state of the first render, and the refs after the mount effect ran
    in a browser that has both speech services. *)
Definition initial (voices : list Voice) : Store :=
  {| isListening := false; isProcessing := false; isSpeaking := false;
     currentTranscript := []; conversation := []; selectedVoice := None;
     speechRate := double_0_9; speechVolume := double_0_8;
     error := []; permissionGranted := false;
     recognitionRef := Some {| rec_started := false |};
     synthRef := Some {| synth_queue := []; synth_voices := voices |};
     calls := [] |}.

(** The closure of the render that shows store [s]. *)
Definition render (sessionId : jsstring) (s : Store) : Closure :=
  {| c_sessionId := sessionId;
     c_isListening := isListening s; c_isProcessing := isProcessing s;
     c_isSpeaking := isSpeaking s; c_conversation := conversation s;
     c_selectedVoice := selectedVoice s;
     c_speechRate := speechRate s; c_speechVolume := speechVolume s |}.

(** *** State setters and platform calls *)

Definition setIsListening (b : bool) : Act Store unit :=
  modify (fun s => Build_Store b (isProcessing s) (isSpeaking s) (currentTranscript s)
    (conversation s) (selectedVoice s) (speechRate s) (speechVolume s) (error s)
    (permissionGranted s) (recognitionRef s) (synthRef s) (calls s)).

Definition setIsProcessing (b : bool) : Act Store unit :=
  modify (fun s => Build_Store (isListening s) b (isSpeaking s) (currentTranscript s)
    (conversation s) (selectedVoice s) (speechRate s) (speechVolume s) (error s)
    (permissionGranted s) (recognitionRef s) (synthRef s) (calls s)).

Definition setIsSpeaking (b : bool) : Act Store unit :=
  modify (fun s => Build_Store (isListening s) (isProcessing s) b (currentTranscript s)
    (conversation s) (selectedVoice s) (speechRate s) (speechVolume s) (error s)
    (permissionGranted s) (recognitionRef s) (synthRef s) (calls s)).

Definition setCurrentTranscript (t : jsstring) : Act Store unit :=
  modify (fun s => Build_Store (isListening s) (isProcessing s) (isSpeaking s) t
    (conversation s) (selectedVoice s) (speechRate s) (speechVolume s) (error s)
    (permissionGranted s) (recognitionRef s) (synthRef s) (calls s)).

(** [setConversation(prev => f(prev))] *)
Definition setConversation (f : list ConversationEntry -> list ConversationEntry) : Act Store unit :=
  modify (fun s => Build_Store (isListening s) (isProcessing s) (isSpeaking s) (currentTranscript s)
    (f (conversation s)) (selectedVoice s) (speechRate s) (speechVolume s) (error s)
    (permissionGranted s) (recognitionRef s) (synthRef s) (calls s)).

Definition setSelectedVoice (v : option Voice) : Act Store unit :=
  modify (fun s => Build_Store (isListening s) (isProcessing s) (isSpeaking s) (currentTranscript s)
    (conversation s) v (speechRate s) (speechVolume s) (error s)
    (permissionGranted s) (recognitionRef s) (synthRef s) (calls s)).

Definition setError (e : jsstring) : Act Store unit :=
  modify (fun s => Build_Store (isListening s) (isProcessing s) (isSpeaking s) (currentTranscript s)
    (conversation s) (selectedVoice s) (speechRate s) (speechVolume s) e
    (permissionGranted s) (recognitionRef s) (synthRef s) (calls s)).

Definition setPermissionGranted (b : bool) : Act Store unit :=
  modify (fun s => Build_Store (isListening s) (isProcessing s) (isSpeaking s) (currentTranscript s)
    (conversation s) (selectedVoice s) (speechRate s) (speechVolume s) (error s)
    b (recognitionRef s) (synthRef s) (calls s)).

Definition setRecognition (r : option Recognition) : Act Store unit :=
  modify (fun s => Build_Store (isListening s) (isProcessing s) (isSpeaking s) (currentTranscript s)
    (conversation s) (selectedVoice s) (speechRate s) (speechVolume s) (error s)
    (permissionGranted s) r (synthRef s) (calls s)).

Definition setSynth (y : option Synthesis) : Act Store unit :=
  modify (fun s => Build_Store (isListening s) (isProcessing s) (isSpeaking s) (currentTranscript s)
    (conversation s) (selectedVoice s) (speechRate s) (speechVolume s) (error s)
    (permissionGranted s) (recognitionRef s) y (calls s)).

Definition call (k : Call) : Act Store unit :=
  modify (fun s => Build_Store (isListening s) (isProcessing s) (isSpeaking s) (currentTranscript s)
    (conversation s) (selectedVoice s) (speechRate s) (speechVolume s) (error s)
    (permissionGranted s) (recognitionRef s) (synthRef s) (calls s ++ [k])).

(** [recognitionRef.current.start()]: an InvalidStateError when the object
    is already started. *)
Definition recognition_start : Act Store unit :=
  rec ← reads recognitionRef;
  match rec with
  | None => throw (Raised (ReadOfNullish (lit "start")))
  | Some r =>
      if rec_started r then throw (Raised InvalidState)
      else call RecognitionStart;; setRecognition (Some {| rec_started := true |})
  end.

(** [recognitionRef.current.stop()]: the object stays started until the
    platform delivers the end event. *)
Definition recognition_stop : Act Store unit := call RecognitionStop.

(** [synthRef.current.cancel()] *)
Definition synth_cancel : Act Store unit :=
  y ← reads synthRef;
  match y with
  | None => throw (Raised (ReadOfNullish (lit "cancel")))
  | Some y => call SynthCancel;; setSynth (Some {| synth_queue := []; synth_voices := synth_voices y |})
  end.

(** [synthRef.current.speak(utterance)] *)
Definition synth_speak (u : Utterance) : Act Store unit :=
  y ← reads synthRef;
  match y with
  | None => throw (Raised (ReadOfNullish (lit "speak")))
  | Some y =>
      call (SynthSpeak u);;
      setSynth (Some {| synth_queue := synth_queue y ++ [u]; synth_voices := synth_voices y |})
  end.

(** *** Text to speech *)

Definition speakText (c : Closure) (text : JSValue) : Act Store unit :=
  y ← reads synthRef;
  if negb (bool_decide (is_Some y)) || negb (bool_decide (is_Some (c_selectedVoice c)))
  then mret tt
  else
    trimmed ← lift (call_trim text);
    if is_empty trimmed then mret tt
    else
      synth_cancel;;
      let cleaned := match text with JStr t => cleanText t | _ => [] end in
      let utterance :=
        {| utt_text := cleaned; utt_voice := c_selectedVoice c;
           utt_rate := c_speechRate c; utt_pitch := double_1_0;
           utt_volume := c_speechVolume c |} in
      setIsSpeaking true;;
      synth_speak utterance.

Definition utterance_onstart : Act Store unit := setIsSpeaking true.
Definition utterance_onend : Act Store unit := setIsSpeaking false.
Definition utterance_onerror : Act Store unit :=
  setIsSpeaking false;; setError (lit "Text-to-speech error occurred").

(** *** Processing one user input *)

(** The four clock readings of [processUserInput], in evaluation order. *)
Record Clock := { now_user : N; date_user : N; now_assistant : N; date_assistant : N }.

Definition api_base (NEXT_PUBLIC_API_URL : option jsstring) : jsstring :=
  match NEXT_PUBLIC_API_URL with
  | Some u => if is_empty u then lit "http://localhost:8000" else u
  | None => lit "http://localhost:8000"
  end.

Definition role_content (c : ConversationEntry) : JSValue :=
  JObj [ (lit "role", JStr (match entry_type c with user => lit "user" | assistant => lit "assistant" end));
         (lit "content", entry_text c) ].

Definition request_body (c : Closure) (text : jsstring) : JSValue :=
  JObj [ (lit "task", JStr text);
         (lit "context", JObj [ (lit "session_id", JStr (c_sessionId c));
                                (lit "input_method", JStr (lit "voice"));
                                (lit "conversation_context",
                                  JArr (map role_content (slice_last 4 (c_conversation c)))) ]);
         (lit "agents", JArr [JStr (lit "researcher"); JStr (lit "analyzer")]) ].

(** [prev.map(entry => entry.id === id ? { ...entry, text, isProcessing: false } : entry)] *)
Definition resolve_entry (id : jsstring) (text : JSValue) (prev : list ConversationEntry)
    : list ConversationEntry :=
  map (fun entry =>
         if str_eqb (entry_id entry) id
         then {| entry_id := entry_id entry; entry_type := entry_type entry;
                 entry_text := text; entry_timestamp := entry_timestamp entry;
                 entry_isProcessing := Some false |}
         else entry) prev.

(** An awaited request: the closure of the call and the id of its
    placeholder entry. *)
Record Pending := { p_closure : Closure; p_processingId : jsstring }.

Section Environment.

Variable NEXT_PUBLIC_API_URL : option jsstring.
Variable engine : EngineError -> jsstring.

(** [processUserInput] up to its first [await]. *)
Definition processUserInput (c : Closure) (clock : Clock) (text : jsstring)
    : Act Store (option Pending) :=
  if is_empty (trim text) then mret None
  else
    let userEntry :=
      {| entry_id := lit "user-" ++ decimal (now_user clock); entry_type := user;
         entry_text := JStr text; entry_timestamp := date_user clock;
         entry_isProcessing := None |} in
    let processingEntry :=
      {| entry_id := lit "assistant-" ++ decimal (now_assistant clock); entry_type := assistant;
         entry_text := JStr (lit "Processing your request..."); entry_timestamp := date_assistant clock;
         entry_isProcessing := Some true |} in
    setConversation (fun prev => prev ++ [userEntry; processingEntry]);;
    setIsProcessing true;;
    call (Fetch (api_base NEXT_PUBLIC_API_URL ++ lit "/api/agents/coordinate") (request_body c text));;
    mret (Some {| p_closure := c; p_processingId := entry_id processingEntry |}).

(** [processUserInput] from the settled [fetch] on. *)
Definition processUserInput_resume (p : Pending) (o : FetchOutcome) : Act Store unit :=
  let c := p_closure p in
  try_finally
    (try_catch
       (response ← await_fetch o;
        (if negb (ok response)
         then throw (ErrorObj (lit "HTTP " ++ decimal (status response) ++ lit ": " ++ statusText response))
         else mret tt);;
        result ← lift (json response);
        aiResponse ← lift (summary_or result (lit "I processed your request successfully."));
        setConversation (resolve_entry (p_processingId p) aiResponse);;
        y ← reads synthRef;
        if bool_decide (is_Some y) && bool_decide (is_Some (c_selectedVoice c)) && truthy aiResponse
        then speakText c aiResponse
        else mret tt)
       (fun error =>
          call ConsoleError;;
          let errorMsg := lit "Sorry, I encountered an error: " ++ error_message engine error in
          setConversation (resolve_entry (p_processingId p) (JStr errorMsg));;
          setError errorMsg;;
          y ← reads synthRef;
          if bool_decide (is_Some y) && bool_decide (is_Some (c_selectedVoice c))
          then speakText c (JStr errorMsg)
          else mret tt))
    (setIsProcessing false).

(** *** Recognition callbacks *)

Definition recognition_onstart : Act Store unit :=
  setIsListening true;; setError [];; setCurrentTranscript [].

Definition recognition_onresult (c : Closure) (clock : Clock) (results : list SpeechResult)
    : Act Store (option Pending) :=
  setCurrentTranscript (interimTranscript results);;
  if negb (is_empty (finalTranscript results)) then
    setCurrentTranscript [];;
    processUserInput c clock (trim (finalTranscript results))
  else mret None.

Definition recognition_onend : Act Store unit := setIsListening false.

Definition recognition_onerror (kind : jsstring) : Act Store unit :=
  setIsListening false;;
  (if str_eqb kind (lit "no-speech") then
     setError (lit "No speech detected. Please try again.")
   else if str_eqb kind (lit "audio-capture") then
     setError (lit "Microphone not accessible. Please check permissions.")
   else if str_eqb kind (lit "not-allowed") then
     setPermissionGranted false;;
     setError (lit "Microphone permission denied. Please allow microphone access.")
   else if str_eqb kind (lit "network") then
     setError (lit "Network error. Please check your connection.")
   else setError (lit "Speech recognition error: " ++ kind)).

End Environment.

(** *** Control functions *)

(** [startListening] up to [await getUserMedia]; [true] when it awaits. *)
Definition startListening (c : Closure) : Act Store bool :=
  rec ← reads recognitionRef;
  if negb (bool_decide (is_Some rec)) || c_isListening c || c_isProcessing c
  then mret false
  else call GetUserMedia;; mret true.

(** [startListening] from the settled permission request on. *)
Definition startListening_resume (granted : bool) : Act Store unit :=
  if granted then
    setPermissionGranted true;;
    setError [];;
    try_catch recognition_start
      (fun _ => setError (lit "Failed to start speech recognition. Please try again."))
  else
    setError (lit "Microphone permission required. Please allow access and try again.");;
    setPermissionGranted false.

Definition stopListening (c : Closure) : Act Store unit :=
  rec ← reads recognitionRef;
  if bool_decide (is_Some rec) && c_isListening c then recognition_stop else mret tt.

Definition stopSpeaking : Act Store unit :=
  y ← reads synthRef;
  if bool_decide (is_Some y) then synth_cancel;; setIsSpeaking false else mret tt.

Definition clearConversation (c : Closure) : Act Store unit :=
  setConversation (fun _ => []);;
  setCurrentTranscript [];;
  setError [];;
  stopListening c;;
  stopSpeaking.

(** The main voice button: [onClick={isListening ? stopListening : startListening}],
    [disabled={isProcessing}]. *)
Definition mainButton_onClick (c : Closure) : Act Store bool :=
  if c_isProcessing c then mret false
  else if c_isListening c then stopListening c;; mret false
  else startListening c.

(** *** The component as an event-driven system *)

Record World := {
  store : Store;
  awaiting : list Pending;        (* requests whose [fetch] has not settled, oldest first *)
  media_requests : nat }.         (* [getUserMedia] promises not yet settled *)

Inductive Event :=
| Click_mainButton
| Click_stopSpeaking
| Click_clear
| Media_settled (granted : bool)
| Rec_start
| Rec_result (clock : Clock) (results : list SpeechResult)
| Rec_end
| Rec_error (kind : jsstring)
| Fetch_settled (o : FetchOutcome)
| Utt_start
| Utt_end
| Utt_error
| Voice_selected (v : option Voice).

Definition boot (voices : list Voice) : World :=
  {| store := initial voices; awaiting := []; media_requests := 0 |}.

(** The platform side of an end event: the recognizer is no longer started. *)
Definition recognition_ended : Act Store unit :=
  rec ← reads recognitionRef;
  match rec with
  | Some _ => setRecognition (Some {| rec_started := false |})
  | None => mret tt
  end.

(** The platform side of a terminal utterance event: the utterance leaves
    the queue. *)
Definition utterance_done : Act Store unit :=
  y ← reads synthRef;
  match y with
  | Some y => setSynth (Some {| synth_queue := tail (synth_queue y); synth_voices := synth_voices y |})
  | None => mret tt
  end.

Section System.

Variable NEXT_PUBLIC_API_URL : option jsstring.
Variable engine : EngineError -> jsstring.
Variable sessionId : jsstring.
Variable binding : Binding.

Definition callback_closure (s : Store) : Closure :=
  match binding with
  | Mount => render sessionId (initial [])
  | Latest => render sessionId s
  end.

Definition step (w : World) (e : Event) : World :=
  let s := store w in
  match e with
  | Click_mainButton =>
      let (s', r) := mainButton_onClick (render sessionId s) s in
      {| store := s'; awaiting := awaiting w;
         media_requests := match r with Normal true => S (media_requests w) | _ => media_requests w end |}
  | Click_stopSpeaking =>
      (* the button is rendered only while [isSpeaking] *)
      {| store := if isSpeaking s then exec stopSpeaking s else s;
         awaiting := awaiting w; media_requests := media_requests w |}
  | Click_clear =>
      {| store := exec (clearConversation (render sessionId s)) s;
         awaiting := awaiting w; media_requests := media_requests w |}
  | Media_settled granted =>
      match media_requests w with
      | O => w
      | S n => {| store := exec (startListening_resume granted) s;
                  awaiting := awaiting w; media_requests := n |}
      end
  | Rec_start =>
      {| store := exec recognition_onstart s;
         awaiting := awaiting w; media_requests := media_requests w |}
  | Rec_result clock results =>
      let (s', r) := recognition_onresult NEXT_PUBLIC_API_URL (callback_closure s) clock results s in
      {| store := s';
         awaiting := match r with Normal (Some p) => awaiting w ++ [p] | _ => awaiting w end;
         media_requests := media_requests w |}
  | Rec_end =>
      {| store := exec (recognition_ended;; recognition_onend) s;
         awaiting := awaiting w; media_requests := media_requests w |}
  | Rec_error kind =>
      {| store := exec (recognition_onerror kind) s;
         awaiting := awaiting w; media_requests := media_requests w |}
  | Fetch_settled o =>
      match awaiting w with
      | [] => w
      | p :: rest => {| store := exec (processUserInput_resume engine p o) s;
                        awaiting := rest; media_requests := media_requests w |}
      end
  | Utt_start =>
      {| store := exec utterance_onstart s;
         awaiting := awaiting w; media_requests := media_requests w |}
  | Utt_end =>
      {| store := exec (utterance_done;; utterance_onend) s;
         awaiting := awaiting w; media_requests := media_requests w |}
  | Utt_error =>
      {| store := exec (utterance_done;; utterance_onerror) s;
         awaiting := awaiting w; media_requests := media_requests w |}
  | Voice_selected v =>
      {| store := exec (setSelectedVoice v) s;
         awaiting := awaiting w; media_requests := media_requests w |}
  end.

Definition run (w : World) (events : list Event) : World := fold_left step events w.

End System.

End VoiceInterface.

(** ** The RealTimeVoiceChat component *)

Module RealTimeVoiceChat.

Inductive MessageType := user | ai.

Record Message := {
  msg_type : MessageType;
  msg_text : JSValue;
  msg_timestamp : N }.

Record Closure := {
  c_sessionId : jsstring;
  c_isListening : bool;
  c_isProcessing : bool;
  c_isSpeaking : bool }.

Record Store := {
  isListening : bool;
  isProcessing : bool;
  isSpeaking : bool;
  transcript : jsstring;
  aiResponse : JSValue;
  conversation : list Message;
  error : jsstring;
  recognitionRef : option Recognition;
  synthRef : option Synthesis;
  calls : list Call }.

Definition initial (voices : list Voice) : Store :=
  {| isListening := false; isProcessing := false; isSpeaking := false;
     transcript := []; aiResponse := JStr []; conversation := []; error := [];
     recognitionRef := Some {| rec_started := false |};
     synthRef := Some {| synth_queue := []; synth_voices := voices |};
     calls := [] |}.

Definition render (sessionId : jsstring) (s : Store) : Closure :=
  {| c_sessionId := sessionId; c_isListening := isListening s;
     c_isProcessing := isProcessing s; c_isSpeaking := isSpeaking s |}.

Definition setIsListening (b : bool) : Act Store unit :=
  modify (fun s => Build_Store b (isProcessing s) (isSpeaking s) (transcript s) (aiResponse s)
    (conversation s) (error s) (recognitionRef s) (synthRef s) (calls s)).

Definition setIsProcessing (b : bool) : Act Store unit :=
  modify (fun s => Build_Store (isListening s) b (isSpeaking s) (transcript s) (aiResponse s)
    (conversation s) (error s) (recognitionRef s) (synthRef s) (calls s)).

Definition setIsSpeaking (b : bool) : Act Store unit :=
  modify (fun s => Build_Store (isListening s) (isProcessing s) b (transcript s) (aiResponse s)
    (conversation s) (error s) (recognitionRef s) (synthRef s) (calls s)).

Definition setTranscript (t : jsstring) : Act Store unit :=
  modify (fun s => Build_Store (isListening s) (isProcessing s) (isSpeaking s) t (aiResponse s)
    (conversation s) (error s) (recognitionRef s) (synthRef s) (calls s)).

Definition setAiResponse (v : JSValue) : Act Store unit :=
  modify (fun s => Build_Store (isListening s) (isProcessing s) (isSpeaking s) (transcript s) v
    (conversation s) (error s) (recognitionRef s) (synthRef s) (calls s)).

Definition setConversation (f : list Message -> list Message) : Act Store unit :=
  modify (fun s => Build_Store (isListening s) (isProcessing s) (isSpeaking s) (transcript s)
    (aiResponse s) (f (conversation s)) (error s) (recognitionRef s) (synthRef s) (calls s)).

Definition setError (e : jsstring) : Act Store unit :=
  modify (fun s => Build_Store (isListening s) (isProcessing s) (isSpeaking s) (transcript s)
    (aiResponse s) (conversation s) e (recognitionRef s) (synthRef s) (calls s)).

Definition setRecognition (r : option Recognition) : Act Store unit :=
  modify (fun s => Build_Store (isListening s) (isProcessing s) (isSpeaking s) (transcript s)
    (aiResponse s) (conversation s) (error s) r (synthRef s) (calls s)).

Definition setSynth (y : option Synthesis) : Act Store unit :=
  modify (fun s => Build_Store (isListening s) (isProcessing s) (isSpeaking s) (transcript s)
    (aiResponse s) (conversation s) (error s) (recognitionRef s) y (calls s)).

Definition call (k : Call) : Act Store unit :=
  modify (fun s => Build_Store (isListening s) (isProcessing s) (isSpeaking s) (transcript s)
    (aiResponse s) (conversation s) (error s) (recognitionRef s) (synthRef s) (calls s ++ [k])).

Definition recognition_start : Act Store unit :=
  rec ← reads recognitionRef;
  match rec with
  | None => throw (Raised (ReadOfNullish (lit "start")))
  | Some r =>
      if rec_started r then throw (Raised InvalidState)
      else call RecognitionStart;; setRecognition (Some {| rec_started := true |})
  end.

Definition recognition_stop : Act Store unit := call RecognitionStop.

Definition synth_cancel : Act Store unit :=
  y ← reads synthRef;
  match y with
  | None => throw (Raised (ReadOfNullish (lit "cancel")))
  | Some y => call SynthCancel;; setSynth (Some {| synth_queue := []; synth_voices := synth_voices y |})
  end.

Definition synth_speak (u : Utterance) : Act Store unit :=
  y ← reads synthRef;
  match y with
  | None => throw (Raised (ReadOfNullish (lit "speak")))
  | Some y =>
      call (SynthSpeak u);;
      setSynth (Some {| synth_queue := synth_queue y ++ [u]; synth_voices := synth_voices y |})
  end.

(** *** Control functions *)

Definition startListening (c : Closure) : Act Store unit :=
  rec ← reads recognitionRef;
  if bool_decide (is_Some rec) && negb (c_isListening c) && negb (c_isProcessing c) then
    setTranscript [];;
    setError [];;
    recognition_start
  else mret tt.

Definition stopListening (c : Closure) : Act Store unit :=
  rec ← reads recognitionRef;
  if bool_decide (is_Some rec) && c_isListening c then recognition_stop else mret tt.

Definition stopSpeaking : Act Store unit :=
  y ← reads synthRef;
  if bool_decide (is_Some y) then synth_cancel;; setIsSpeaking false else mret tt.

Definition toggleVoiceChat (c : Closure) : Act Store unit :=
  if c_isListening c then stopListening c
  else if c_isSpeaking c then stopSpeaking
  else startListening c.

(** The main control button: [onClick={toggleVoiceChat}], [disabled={isProcessing}]. *)
Definition mainButton_onClick (c : Closure) : Act Store unit :=
  if c_isProcessing c then mret tt else toggleVoiceChat c.

(** *** Text to speech *)

(** [voices.find(voice => voice.lang.startsWith('en')) || voices[0]] *)
Definition englishVoice (voices : list Voice) : option Voice :=
  match find (fun v => startsWith (lit "en") (voice_lang v)) voices with
  | Some v => Some v
  | None => head voices
  end.

Definition speakText (c : Closure) (text : JSValue) : Act Store unit :=
  y ← reads synthRef;
  match y with
  | None => mret tt
  | Some synth =>
      trimmed ← lift (call_trim text);
      if is_empty trimmed then mret tt
      else
        synth_cancel;;
        let utterance :=
          {| utt_text := match text with JStr t => t | _ => [] end;
             utt_voice := englishVoice (synth_voices synth);
             utt_rate := double_0_9; utt_pitch := double_1_0; utt_volume := double_0_8 |} in
        setIsSpeaking true;;
        synth_speak utterance
  end.

Definition utterance_onstart : Act Store unit := setIsSpeaking true.

(** The end handler of an utterance: the resume timer is always armed. *)
Definition utterance_onend : Act Store unit :=
  setIsSpeaking false;; call (SetTimeout 500).

(** The callback of that timer, in the closure of the [speakText] call. *)
Definition resume_timer (c : Closure) : Act Store unit :=
  if negb (c_isProcessing c) then startListening c else mret tt.

Definition utterance_onerror : Act Store unit := setIsSpeaking false.

(** *** Processing one voice input *)

Definition request_body (c : Closure) (text : jsstring) : JSValue :=
  JObj [ (lit "task", JStr text);
         (lit "context", JObj [ (lit "session_id", JStr (c_sessionId c));
                                (lit "input_method", JStr (lit "voice"));
                                (lit "real_time", JBool true) ]);
         (lit "agents", JArr [JStr (lit "researcher"); JStr (lit "analyzer")]) ].

Section Environment.

Variable engine : EngineError -> jsstring.

(** [processVoiceInput] up to its first [await]; [true] when it awaits. *)
Definition processVoiceInput (c : Closure) (date : N) (text : jsstring) : Act Store bool :=
  if is_empty (trim text) || c_isProcessing c then mret false
  else
    setIsProcessing true;;
    stopListening c;;
    let userMessage := {| msg_type := user; msg_text := JStr text; msg_timestamp := date |} in
    setConversation (fun prev => prev ++ [userMessage]);;
    call (Fetch (lit "http://localhost:8000/api/agents/coordinate") (request_body c text));;
    mret true.

(** [processVoiceInput] from the settled [fetch] on. *)
Definition processVoiceInput_resume (c : Closure) (date : N) (o : FetchOutcome) : Act Store unit :=
  try_finally
    (try_catch
       (response ← await_fetch o;
        (if negb (ok response)
         then throw (ErrorObj (lit "HTTP " ++ decimal (status response)))
         else mret tt);;
        result ← lift (json response);
        aiText ← lift (summary_or result (lit "I processed your request successfully!"));
        setAiResponse aiText;;
        let aiMessage := {| msg_type := ai; msg_text := aiText; msg_timestamp := date |} in
        setConversation (fun prev => prev ++ [aiMessage]);;
        speakText c aiText)
       (fun error =>
          let errorMsg := lit "Sorry, I encountered an error: " ++ error_message engine error in
          setError errorMsg;;
          speakText c (JStr errorMsg)))
    (setIsProcessing false).

(** *** Recognition callbacks *)

Definition recognition_onstart : Act Store unit :=
  setIsListening true;; setError [].

Definition recognition_onresult (c : Closure) (date : N) (results : list SpeechResult)
    : Act Store bool :=
  if negb (is_empty (finalTranscript results)) then
    setTranscript (finalTranscript results);;
    processVoiceInput c date (finalTranscript results)
  else mret false.

Definition recognition_onend : Act Store unit := setIsListening false.

Definition recognition_onerror (kind : jsstring) : Act Store unit :=
  setIsListening false;; setError (lit "Speech recognition error: " ++ kind).

End Environment.

(** *** The component as an event-driven system *)

Record World := {
  store : Store;
  awaiting : list Closure;      (* closures of the calls whose [fetch] has not settled *)
  utterances : list Closure;    (* closures of the utterances spoken and not yet ended *)
  timers : list Closure }.      (* closures of the armed resume timers *)

Inductive Event :=
| Click_mainButton
| Click_stopSpeaking
| Click_clear
| Rec_start
| Rec_result (date : N) (results : list SpeechResult)
| Rec_end
| Rec_error (kind : jsstring)
| Fetch_settled (date : N) (o : FetchOutcome)
| Utt_start
| Utt_end
| Utt_error
| Timer_fires.

Definition boot (voices : list Voice) : World :=
  {| store := initial voices; awaiting := []; utterances := []; timers := [] |}.

Definition recognition_ended : Act Store unit :=
  rec ← reads recognitionRef;
  match rec with
  | Some _ => setRecognition (Some {| rec_started := false |})
  | None => mret tt
  end.

Definition utterance_done : Act Store unit :=
  y ← reads synthRef;
  match y with
  | Some y => setSynth (Some {| synth_queue := tail (synth_queue y); synth_voices := synth_voices y |})
  | None => mret tt
  end.

(** Whether a handler handed a new utterance to the synthesizer. *)
Definition is_speak (k : Call) : bool :=
  match k with SynthSpeak _ => true | _ => false end.

Definition spoke (before after : Store) : bool :=
  existsb is_speak (drop (length (calls before)) (calls after)).

Section System.

Variable engine : EngineError -> jsstring.
Variable sessionId : jsstring.
Variable binding : Binding.

Definition callback_closure (s : Store) : Closure :=
  match binding with
  | Mount => render sessionId (initial [])
  | Latest => render sessionId s
  end.

Definition with_store (w : World) (s : Store) : World :=
  {| store := s; awaiting := awaiting w; utterances := utterances w; timers := timers w |}.

Definition step (w : World) (e : Event) : World :=
  let s := store w in
  match e with
  | Click_mainButton => with_store w (exec (mainButton_onClick (render sessionId s)) s)
  | Click_stopSpeaking =>
      (* the button is disabled unless [isSpeaking] *)
      with_store w (if isSpeaking s then exec stopSpeaking s else s)
  | Click_clear => with_store w (exec (setConversation (fun _ => [])) s)
  | Rec_start => with_store w (exec recognition_onstart s)
  | Rec_result date results =>
      let c := callback_closure s in
      let (s', r) := recognition_onresult c date results s in
      {| store := s';
         awaiting := match r with Normal true => awaiting w ++ [c] | _ => awaiting w end;
         utterances := utterances w; timers := timers w |}
  | Rec_end => with_store w (exec (recognition_ended;; recognition_onend) s)
  | Rec_error kind => with_store w (exec (recognition_onerror kind) s)
  | Fetch_settled date o =>
      match awaiting w with
      | [] => w
      | c :: rest =>
          let s' := exec (processVoiceInput_resume engine c date o) s in
          {| store := s'; awaiting := rest;
             utterances := if spoke s s' then utterances w ++ [c] else utterances w;
             timers := timers w |}
      end
  | Utt_start => with_store w (exec utterance_onstart s)
  | Utt_end =>
      match utterances w with
      | [] => w
      | c :: rest =>
          {| store := exec (utterance_done;; utterance_onend) s; awaiting := awaiting w;
             utterances := rest; timers := timers w ++ [c] |}
      end
  | Utt_error =>
      match utterances w with
      | [] => w
      | c :: rest =>
          {| store := exec (utterance_done;; utterance_onerror) s; awaiting := awaiting w;
             utterances := rest; timers := timers w |}
      end
  | Timer_fires =>
      match timers w with
      | [] => w
      | c :: rest =>
          {| store := exec (resume_timer c) s; awaiting := awaiting w;
             utterances := utterances w; timers := rest |}
      end
  end.

Definition run (w : World) (events : list Event) : World := fold_left step events w.

End System.

End RealTimeVoiceChat.

Module VI := VoiceInterface.
Module RT := RealTimeVoiceChat.

(** ** Voice selection of the VoiceInterface ([loadVoices], the voice menu) *)

(** [hay.includes(needle)] *)
Fixpoint includes (needle hay : jsstring) : bool :=
  startsWith needle hay
  || match hay with
     | [] => false
     | _ :: hay' => includes needle hay'
     end.

(** [s.split(sep)[0]] for a non-empty separator: what precedes the first
    occurrence of [sep], or all of [s]. *)
Fixpoint split_head (sep s : jsstring) : jsstring :=
  if startsWith sep s then []
  else match s with
       | [] => []
       | c :: s' => c :: split_head sep s'
       end.

Definition preferredVoices : list jsstring :=
  [ lit "Microsoft Zira - English (United States)";
    lit "Microsoft David - English (United States)";
    lit "Google US English";
    lit "Alex";
    lit "Samantha";
    lit "Karen" ].

Section LoadVoices.

(** [String.prototype.toLowerCase], which depends on the Unicode tables of
    the engine. *)
Variable toLowerCase : jsstring -> jsstring.

(** The loop over [preferredVoices]: the first preferred name that some
    voice matches decides, and the first voice that matches it is taken. *)
Fixpoint preferred_match (preferred : list jsstring) (voices : list Voice) : option Voice :=
  match preferred with
  | [] => None
  | p :: rest =>
      match find (fun voice =>
                    includes (split_head (lit " - ") (toLowerCase p))
                             (toLowerCase (voice_name voice))) voices with
      | Some v => Some v
      | None => preferred_match rest voices
      end
  end.

(** The voice [loadVoices] hands to [setSelectedVoice]. *)
Definition bestVoice (voices : list Voice) : option Voice :=
  match preferred_match preferredVoices voices with
  | Some v => Some v
  | None =>
      match find (fun voice => startsWith (lit "en-US") (voice_lang voice)) voices with
      | Some v => Some v
      | None =>
          match find (fun voice => startsWith (lit "en") (voice_lang voice)) voices with
          | Some v => Some v
          | None => head voices
          end
      end
  end.

End LoadVoices.

(** The [onChange] handler of the voice menu:
    [availableVoices.find(v => v.name === e.target.value) || null]. *)
Definition voiceMenu_onChange (availableVoices : list Voice) (value : jsstring) : option Voice :=
  find (fun v => str_eqb (voice_name v) value) availableVoices.

(** ** What the components display *)

(** The status line of the VoiceInterface header. *)
Definition VI_statusLabel (c : VI.Closure) : jsstring :=
  if VI.c_isListening c then lit "Listening..."
  else if VI.c_isProcessing c then lit "Processing..."
  else if VI.c_isSpeaking c then lit "Speaking..."
  else lit "Ready".

(** The status text under the RealTimeVoiceChat button. *)
Definition RT_statusText (c : RT.Closure) : jsstring :=
  if RT.c_isListening c then lit "Listening... Speak now!"
  else if RT.c_isSpeaking c then lit "AI is speaking..."
  else if RT.c_isProcessing c then lit "Processing your request..."
  else lit "Click to start voice conversation".

(** The caption inside the RealTimeVoiceChat button. *)
Definition RT_buttonCaption (c : RT.Closure) : jsstring :=
  if RT.c_isListening c then lit "STOP"
  else if RT.c_isSpeaking c then lit "SPEAKING"
  else if RT.c_isProcessing c then lit "THINKING"
  else lit "TALK".

(** The messages of the history panel: [conversation.slice(-6)]. *)
Definition RT_shownConversation (conversation : list RT.Message) : list RT.Message :=
  slice_last 6 conversation.

(** ** The AgentStatusIndicator component *)

Module AgentStatusIndicator.

Record AgentInfo := { emoji : jsstring; color : jsstring; name : jsstring }.

(** The emoji are written as their UTF-16 code units. *)
Definition getAgentInfo (role : jsstring) : AgentInfo :=
  if str_eqb role (lit "coordinator") then
    {| emoji := [55357; 56523]; color := lit "text-blue-600"; name := lit "Coordinator" |}
  else if str_eqb role (lit "researcher") then
    {| emoji := [55357; 56589]; color := lit "text-green-600"; name := lit "Researcher" |}
  else if str_eqb role (lit "analyzer") then
    {| emoji := [55357; 56620]; color := lit "text-purple-600"; name := lit "Analyzer" |}
  else if str_eqb role (lit "executor") then
    {| emoji := [9889]; color := lit "text-orange-600"; name := lit "Executor" |}
  else
    {| emoji := [55358; 56598]; color := lit "text-gray-600"; name := lit "Agent" |}.

(** [s.replace(pattern, replacement)] with a string pattern of one code
    unit: the first occurrence only. *)
Fixpoint replace_first (pattern : N) (replacement : jsstring) (s : jsstring) : jsstring :=
  match s with
  | [] => []
  | c :: s' => if c =? pattern then replacement ++ s' else c :: replace_first pattern replacement s'
  end.

(** The capability chips of one agent:
    [capabilities.slice(0, 3).map(capability => capability.replace('_', ' '))]. *)
Definition capabilityChips (capabilities : list jsstring) : list jsstring :=
  map (replace_first 95 (lit " ")) (take 3 capabilities).

(** The count of the [+n more] chip, shown when there are more than three. *)
Definition moreChip (capabilities : list jsstring) : option nat :=
  if (3 <? length capabilities)%nat then Some (length capabilities - 3)%nat else None.

End AgentStatusIndicator.

(** ** Observations on the log of platform calls *)


Definition is_stop (k : Call) : bool :=
  match k with RecognitionStop => true | _ => false end.

Definition is_speak (k : Call) : bool :=
  match k with SynthSpeak _ => true | _ => false end.


(** No two U+0020 in a row. *)
Fixpoint single_spaced (s : jsstring) : bool :=
  match s with
  | a :: s' =>
      match s' with
      | b :: _ => negb ((a =? 32) && (b =? 32)) && single_spaced s'
      | [] => true
      end
  | [] => true
  end.

(** The number of utterances the synthesizer holds. *)
Definition queue_length (y : option Synthesis) : nat :=
  match y with
  | Some y => length (synth_queue y)
  | None => O
  end.

(** The value under [key] of a request body, [undefined] where there is none. *)
Definition field (v : JSValue) (key : jsstring) : JSValue :=
  match get v key with
  | Normal x => x
  | Throw _ => JUndefined
  end.

(** A call that is no [speak] and, if a request, one whose conversation
    context is the empty array. *)
Definition silent_without_context (k : Call) : bool :=
  match k with
  | SynthSpeak _ => false
  | Fetch _ body =>
      match field (field body (lit "context")) (lit "conversation_context") with
      | JArr [] => true
      | _ => false
      end
  | _ => true
  end.


(** ** Sample environment *)

Module Samples.

(** The messages of one engine. *)
Definition v8 (e : EngineError) : jsstring :=
  match e with
  | ReadOfNullish p => lit "Cannot read properties of null (reading '" ++ p ++ lit "')"
  | NotAFunction p => lit "text." ++ p ++ lit " is not a function"
  | InvalidState => lit "Failed to execute 'start' on 'SpeechRecognition': recognition has already started."
  end.

(** Lower case of the ASCII letters, which is [toLowerCase] on strings of
    ASCII code units. *)
Definition ascii_toLowerCase (s : jsstring) : jsstring :=
  map (fun c => if (65 <=? c) && (c <=? 90) then c + 32 else c) s.

Definition zira : Voice := {| voice_name := lit "Microsoft Zira"; voice_lang := lit "en-US" |}.
Definition amelie : Voice := {| voice_name := lit "Amelie"; voice_lang := lit "fr-CA" |}.
Definition daniel : Voice := {| voice_name := lit "Daniel"; voice_lang := lit "en-GB" |}.

Definition sid : jsstring := lit "s1".

Definition ok_response (v : JSValue) : FetchOutcome :=
  Resolved {| status := 200; statusText := lit "OK"; json := Normal v |}.

Definition unavailable : Response :=
  {| status := 503; statusText := lit "Service Unavailable"; json := Normal JNull |}.

Definition sunny : JSValue :=
  JObj [(lit "results", JObj [(lit "summary", JStr (lit "It is sunny."))])].

Definition no_summary : JSValue :=
  JObj [(lit "results", JObj [(lit "summary", JStr [])]); (lit "status", JStr (lit "done"))].

Definition final (t : string) : list SpeechResult :=
  [ {| transcript := lit t; isFinal := true |} ].

Definition interim (t : string) : list SpeechResult :=
  [ {| transcript := lit t; isFinal := false |} ].

Definition clk (n : N) : VI.Clock :=
  {| VI.now_user := n; VI.date_user := n; VI.now_assistant := n; VI.date_assistant := n |}.

(** A VoiceInterface on screen with a voice selected. *)
Definition vi_ready : VI.Store := exec (VI.setSelectedVoice (Some zira)) (VI.initial [zira]).

(** The utterance of an answer that is being played. *)
Definition vi_answer : Utterance :=
  {| utt_text := lit "It is sunny."; utt_voice := Some zira;
     utt_rate := double_0_9; utt_pitch := double_1_0; utt_volume := double_0_8 |}.

(** A VoiceInterface that plays an answer. *)
Definition vi_speaking : VI.Store :=
  exec (VI.setIsSpeaking true;; VI.synth_speak vi_answer) vi_ready.

(** A RealTimeVoiceChat that plays an answer. *)
Definition rt_speaking : RT.Store :=
  exec (RT.setIsSpeaking true;; RT.synth_speak vi_answer) (RT.initial [zira]).

Definition rt_idle : RT.Closure :=
  {| RT.c_sessionId := sid; RT.c_isListening := false;
     RT.c_isProcessing := false; RT.c_isSpeaking := false |}.

Definition rt_listening : RT.Closure :=
  {| RT.c_sessionId := sid; RT.c_isListening := true;
     RT.c_isProcessing := false; RT.c_isSpeaking := false |}.

Definition vi_trace : list VI.Event :=
  [ VI.Voice_selected (Some zira); VI.Click_mainButton; VI.Media_settled true; VI.Rec_start;
    VI.Rec_result (clk 1000) (final "What is the weather"); VI.Rec_end;
    VI.Fetch_settled (ok_response sunny); VI.Utt_start;
    VI.Click_mainButton; VI.Media_settled true; VI.Rec_start ].

Definition rt_trace : list RT.Event :=
  [ RT.Click_mainButton; RT.Rec_start; RT.Rec_result 1000 (final "What is the weather");
    RT.Fetch_settled 1500 (ok_response sunny); RT.Utt_start ].

End Samples.

(** * Properties *)

(** ** Tactics *)

(** Unfold the handler combinators down to functions on stores. *)
Ltac act :=
  cbv [mbind mret act_bind act_ret reads modify throw lift try_catch try_finally
       exec result await_fetch] in *.

(** ** Strings *)

Lemma trimStart_idem (s : jsstring) : trimStart (trimStart s) = trimStart s.
Proof.
  induction s as [|c s IH]; simpl; [reflexivity|].
  destruct (is_space c) eqn:E; [exact IH|].
  simpl. rewrite E. reflexivity.
Qed.

Lemma trimStart_snoc (s : jsstring) (c : N) :
  is_space c = false -> trimStart (s ++ [c]) = trimStart s ++ [c].
Proof.
  intros Hc. induction s as [|a s IH]; simpl.
  - rewrite Hc. reflexivity.
  - destruct (is_space a); [exact IH | reflexivity].
Qed.

Lemma trimEnd_cons (c : N) (s : jsstring) :
  is_space c = false -> trimEnd (c :: s) = c :: trimEnd s.
Proof.
  intros Hc. unfold trimEnd. simpl.
  rewrite trimStart_snoc by exact Hc.
  rewrite rev_app_distr. reflexivity.
Qed.

Lemma trimEnd_idem (s : jsstring) : trimEnd (trimEnd s) = trimEnd s.
Proof.
  unfold trimEnd. rewrite rev_involutive, trimStart_idem. reflexivity.
Qed.

Lemma trimStart_head (s : jsstring) :
  match trimStart s with
  | [] => True
  | c :: _ => is_space c = false
  end.
Proof.
  induction s as [|c s IH]; simpl; [exact I|].
  destruct (is_space c) eqn:E; [exact IH | exact E].
Qed.


Lemma trimStart_trimEnd_trimStart (s : jsstring) :
  trimStart (trimEnd (trimStart s)) = trimEnd (trimStart s).
Proof.
  pose proof (trimStart_head s) as H.
  destruct (trimStart s) as [|c u]; [reflexivity|].
  rewrite trimEnd_cons by exact H. simpl. rewrite H. reflexivity.
Qed.

Lemma trim_idem (s : jsstring) : trim (trim s) = trim s.
Proof.
  unfold trim. rewrite trimStart_trimEnd_trimStart. apply trimEnd_idem.
Qed.

Lemma trim_nil : trim [] = [].
Proof. reflexivity. Qed.

Lemma is_empty_false_app (a b : jsstring) :
  is_empty a = false -> is_empty (a ++ b) = false.
Proof. destruct a; [discriminate | reflexivity]. Qed.
(** ** Starting capture *)

Import Samples.

(** A handler-level run: from a store in which an answer is playing, the
    microphone button of the VoiceInterface asks for the microphone and,
    once granted, starts the recognizer; the recognizer's start event then
    sets [isListening] while [isSpeaking] still holds and the utterance is
    still in the synthesizer's queue. *)
Lemma VI_startListening_while_speaking :
  let c := VI.render sid vi_speaking in
  let s1 := exec (VI.mainButton_onClick c) vi_speaking in
  let s3 := exec VI.recognition_onstart (exec (VI.startListening_resume true) s1) in
  VI.c_isSpeaking c = true
  /\ result (VI.startListening c) vi_speaking = Normal true
  /\ VI.calls s3 = [SynthSpeak vi_answer; GetUserMedia; RecognitionStart]
  /\ VI.isListening s3 = true /\ VI.isSpeaking s3 = true
  /\ VI.recognitionRef s3 = Some {| rec_started := true |}
  /\ VI.synthRef s3 = Some {| synth_queue := [vi_answer]; synth_voices := [zira] |}.
Proof. vm_compute. repeat split. Qed.

(** The same on the whole component, when the recognition callbacks are
    those of the render on screen: after an answer has started to play, a
    press of the button starts capture again. *)
Lemma VI_trace_capture_while_speaking :
  let s := VI.store (VI.run None v8 sid Latest (VI.boot [zira]) vi_trace) in
  VI.isListening s = true /\ VI.isSpeaking s = true
  /\ VI.recognitionRef s = Some {| rec_started := true |}
  /\ option_map synth_queue (VI.synthRef s) = Some [vi_answer].
Proof. vm_compute. repeat split. Qed.




(** ** After playback *)

(** The VoiceInterface does not go back to listening when an utterance
    ends: the end handler clears [isSpeaking] and nothing else; no timer is
    armed and the recognizer is not started. *)
Lemma VI_no_resume_after_playback :
  let s := exec (VI.utterance_done;; VI.utterance_onend) vi_speaking in
  VI.isSpeaking s = false /\ VI.isListening s = false
  /\ VI.calls s = VI.calls vi_speaking
  /\ VI.recognitionRef s = Some {| rec_started := false |}.
Proof. vm_compute. repeat split. Qed.

(** In the RealTimeVoiceChat a stop request leaves nothing behind that the
    resume timer could read: if the end event of the stopped utterance is
    delivered, the timer is armed and its callback starts the recognizer. *)
Lemma RT_resume_after_stop :
  let s1 := exec RT.stopSpeaking rt_speaking in
  let s2 := exec (RT.utterance_done;; RT.utterance_onend) s1 in
  let s3 := exec (RT.resume_timer rt_idle) s2 in
  RT.calls s3 = [SynthSpeak vi_answer; SynthCancel; SetTimeout 500; RecognitionStart]
  /\ RT.recognitionRef s3 = Some {| rec_started := true |}.
Proof. vm_compute. repeat split. Qed.

(** C2 (as the code has it).  In RealTimeVoiceChat the end handler of an
    utterance clears [isSpeaking] and always arms a timer of 500 ms; the
    timer's callback is [startListening] unless the render that spoke was
    processing; [stopSpeaking] changes nothing the callback depends on; the
    error handler arms no timer.  In VoiceInterface the end handler makes
    no platform call and leaves the recognizer as it is. *)
Theorem resume_after_playback (c : RT.Closure) (s : RT.Store) (v : VI.Store) :
  (RT.calls (exec RT.utterance_onend s) = RT.calls s ++ [SetTimeout 500]
   /\ RT.isSpeaking (exec RT.utterance_onend s) = false)
  /\ (RT.c_isProcessing c = true -> RT.resume_timer c s = (s, Normal tt))
  /\ (RT.c_isProcessing c = false -> RT.resume_timer c s = RT.startListening c s)
  /\ (result (RT.resume_timer c) (exec RT.stopSpeaking s) = result (RT.resume_timer c) s
      /\ RT.recognitionRef (exec (RT.resume_timer c) (exec RT.stopSpeaking s))
         = RT.recognitionRef (exec (RT.resume_timer c) s))
  /\ RT.calls (exec RT.utterance_onerror s) = RT.calls s
  /\ (VI.calls (exec VI.utterance_onend v) = VI.calls v
      /\ VI.recognitionRef (exec VI.utterance_onend v) = VI.recognitionRef v
      /\ VI.isListening (exec VI.utterance_onend v) = VI.isListening v).
Proof.
  split; [split; reflexivity|].
  split; [intros H; unfold RT.resume_timer; rewrite H; reflexivity|].
  split; [intros H; unfold RT.resume_timer; rewrite H; reflexivity|].
  split; [|split; [reflexivity | repeat split]].
  destruct s as [? ? ? ? ? ? ? [[[|]]|] [y|] cs], c as [? [|] [|] ?]; split; reflexivity.
Qed.

Lemma resume_after_playback_witness :
  RT.resume_timer (RT.render sid (exec (RT.setIsProcessing true) rt_speaking)) rt_speaking
    = (rt_speaking, Normal tt)
  /\ RT.resume_timer rt_idle rt_speaking = RT.startListening rt_idle rt_speaking.
Proof.
  pose proof (resume_after_playback
                (RT.render sid (exec (RT.setIsProcessing true) rt_speaking))
                rt_speaking vi_speaking) as (_ & H2 & _).
  pose proof (resume_after_playback rt_idle rt_speaking vi_speaking) as (_ & _ & H3 & _).
  split; [apply H2; reflexivity | apply H3; reflexivity].
Defined.
(** ** From a final transcript to a request *)

Lemma is_empty_trim (s : jsstring) : is_empty (trim s) = false -> is_empty s = false.
Proof. destruct s; [discriminate | reflexivity]. Qed.

(** The VoiceInterface dispatches a final transcript without stopping its
    recognizer, whichever render its callbacks belong to: the request
    follows the start of the recognizer in the log with no stop between. *)
Lemma VI_dispatch_without_stop :
  let events :=
    [ VI.Voice_selected (Some zira); VI.Click_mainButton; VI.Media_settled true; VI.Rec_start;
      VI.Rec_result (clk 1000) (interim "what is");
      VI.Rec_result (clk 1000) (final "What is the weather") ] in
  let body :=
    JObj [ (lit "task", JStr (lit "What is the weather"));
           (lit "context", JObj [ (lit "session_id", JStr sid);
                                  (lit "input_method", JStr (lit "voice"));
                                  (lit "conversation_context", JArr []) ]);
           (lit "agents", JArr [JStr (lit "researcher"); JStr (lit "analyzer")]) ] in
  let log := [ GetUserMedia; RecognitionStart;
               Fetch (lit "http://localhost:8000/api/agents/coordinate") body ] in
  let mount := VI.store (VI.run None v8 sid Mount (VI.boot [zira]) events) in
  let latest := VI.store (VI.run None v8 sid Latest (VI.boot [zira]) events) in
  VI.calls mount = log /\ VI.calls latest = log
  /\ existsb is_stop (VI.calls mount) = false /\ existsb is_stop (VI.calls latest) = false
  /\ VI.isProcessing mount = true /\ VI.isProcessing latest = true
  /\ VI.recognitionRef mount = Some {| rec_started := true |}
  /\ VI.recognitionRef latest = Some {| rec_started := true |}.
Proof. vm_compute. repeat split. Qed.

(** C3 (as the code has it).  A result event without a final part
    dispatches nothing.  A result event whose final transcript is not blank
    dispatches exactly one request and sets [isProcessing]: in
    VoiceInterface with the trimmed transcript and no call to the
    recognizer; in RealTimeVoiceChat (when the callback's render is not
    processing) with the transcript as it is, after a stop of the
    recognizer if the callback's render is listening. *)
Theorem final_result_dispatches_once
    (url : option jsstring) (c : VI.Closure) (clock : VI.Clock) (s : VI.Store)
    (c' : RT.Closure) (date : N) (s' : RT.Store) (results : list SpeechResult) :
  let ft := finalTranscript results in
  (ft = [] ->
     result (VI.recognition_onresult url c clock results) s = Normal None
     /\ VI.calls (exec (VI.recognition_onresult url c clock results) s) = VI.calls s
     /\ VI.isProcessing (exec (VI.recognition_onresult url c clock results) s) = VI.isProcessing s
     /\ RT.recognition_onresult c' date results s' = (s', Normal false))
  /\ (is_empty (trim ft) = false ->
        let t := exec (VI.recognition_onresult url c clock results) s in
        VI.calls t
          = VI.calls s ++ [Fetch (VI.api_base url ++ lit "/api/agents/coordinate")
                                 (VI.request_body c (trim ft))]
        /\ VI.isProcessing t = true
        /\ result (VI.recognition_onresult url c clock results) s
           = Normal (Some {| VI.p_closure := c;
                             VI.p_processingId :=
                               lit "assistant-" ++ decimal (VI.now_assistant clock) |}))
  /\ (is_empty (trim ft) = false -> RT.c_isProcessing c' = false ->
        let t' := exec (RT.recognition_onresult c' date results) s' in
        RT.calls t'
          = RT.calls s'
            ++ (if bool_decide (is_Some (RT.recognitionRef s')) && RT.c_isListening c'
                then [RecognitionStop] else [])
            ++ [Fetch (lit "http://localhost:8000/api/agents/coordinate")
                      (RT.request_body c' ft)]
        /\ RT.isProcessing t' = true
        /\ result (RT.recognition_onresult c' date results) s' = Normal true).
Proof.
  intros ft. split; [|split].
  - intros H. unfold VI.recognition_onresult, RT.recognition_onresult.
    fold ft. rewrite H. repeat split.
  - intros H. pose proof (is_empty_trim _ H) as H0.
    unfold VI.recognition_onresult, VI.processUserInput. fold ft.
    rewrite trim_idem, H, H0. repeat split.
  - intros H Hp. pose proof (is_empty_trim _ H) as H0.
    unfold RT.recognition_onresult, RT.processVoiceInput, RT.stopListening. fold ft.
    rewrite H, H0, Hp.
    destruct s' as [? ? ? ? ? ? ? [r|] ? cs], (RT.c_isListening c'); simpl;
      repeat split; rewrite <- ?app_assoc; reflexivity.
Qed.

Lemma final_result_dispatches_once_witness :
  VI.calls (exec (VI.recognition_onresult None (VI.render sid vi_ready) (clk 1000)
                    (final " What is the weather ")) vi_ready)
    = [Fetch (lit "http://localhost:8000/api/agents/coordinate")
             (VI.request_body (VI.render sid vi_ready) (lit "What is the weather"))]
  /\ RT.calls (exec (RT.recognition_onresult rt_listening 1000 (final "What is the weather"))
                 (RT.initial [zira]))
     = [RecognitionStop;
        Fetch (lit "http://localhost:8000/api/agents/coordinate")
              (RT.request_body rt_listening (lit "What is the weather"))]
  /\ RT.recognition_onresult rt_listening 1000 (interim "what is") (RT.initial [zira])
     = (RT.initial [zira], Normal false).
Proof.
  pose proof (final_result_dispatches_once None (VI.render sid vi_ready) (clk 1000) vi_ready
                rt_listening 1000 (RT.initial [zira]) (final " What is the weather "))
    as (_ & H2 & _).
  pose proof (final_result_dispatches_once None (VI.render sid vi_ready) (clk 1000) vi_ready
                rt_listening 1000 (RT.initial [zira]) (final "What is the weather"))
    as (_ & _ & H3).
  pose proof (final_result_dispatches_once None (VI.render sid vi_ready) (clk 1000) vi_ready
                rt_listening 1000 (RT.initial [zira]) (interim "what is"))
    as (H1 & _).
  split; [apply H2; reflexivity|].
  split; [apply H3; reflexivity|].
  apply H1; reflexivity.
Defined.
(** ** A request that fails *)





(** ** A request that succeeds *)

(** Speaking a string never throws and touches neither the conversation
    nor the processing flag, the error text or the recognizer. *)
Lemma VI_speakText_frame (c : VI.Closure) (a : jsstring) (s : VI.Store) :
  result (VI.speakText c (JStr a)) s = Normal tt
  /\ VI.conversation (exec (VI.speakText c (JStr a)) s) = VI.conversation s
  /\ VI.isProcessing (exec (VI.speakText c (JStr a)) s) = VI.isProcessing s
  /\ VI.error (exec (VI.speakText c (JStr a)) s) = VI.error s
  /\ VI.isListening (exec (VI.speakText c (JStr a)) s) = VI.isListening s
  /\ VI.recognitionRef (exec (VI.speakText c (JStr a)) s) = VI.recognitionRef s.
Proof.
  unfold VI.speakText, VI.synth_cancel, VI.synth_speak, VI.call, VI.setSynth, VI.setIsSpeaking.
  destruct c as [? ? ? ? ? [v|] ? ?], s as [? ? ? ? ? ? ? ? ? ? ? [y|] cs];
    act; cbv [call_trim]; cbn -[cleanText trim];
    try destruct (is_empty (trim a)); repeat split.
Qed.

Lemma RT_speakText_frame (c : RT.Closure) (a : jsstring) (s : RT.Store) :
  result (RT.speakText c (JStr a)) s = Normal tt
  /\ RT.conversation (exec (RT.speakText c (JStr a)) s) = RT.conversation s
  /\ RT.isProcessing (exec (RT.speakText c (JStr a)) s) = RT.isProcessing s
  /\ RT.error (exec (RT.speakText c (JStr a)) s) = RT.error s
  /\ RT.aiResponse (exec (RT.speakText c (JStr a)) s) = RT.aiResponse s
  /\ RT.isListening (exec (RT.speakText c (JStr a)) s) = RT.isListening s
  /\ RT.recognitionRef (exec (RT.speakText c (JStr a)) s) = RT.recognitionRef s.
Proof.
  unfold RT.speakText, RT.synth_cancel, RT.synth_speak, RT.call, RT.setSynth, RT.setIsSpeaking.
  destruct s as [? ? ? ? ? ? ? ? [y|] cs];
    act; cbv [call_trim]; cbn -[trim RT.englishVoice];
    try destruct (is_empty (trim a)); repeat split.
Qed.

Lemma str_eqb_refl (a : jsstring) : str_eqb a a = true.
Proof. unfold str_eqb. apply bool_decide_eq_true. reflexivity. Qed.

Lemma str_eqb_neq (a b : jsstring) : a <> b -> str_eqb a b = false.
Proof. unfold str_eqb. intros H. apply bool_decide_eq_false. exact H. Qed.

(** Rewriting the entry of an id that no entry has changes nothing. *)
Lemma resolve_entry_fresh (id : jsstring) (text : JSValue) (l : list VI.ConversationEntry) :
  Forall (fun e => VI.entry_id e <> id) l -> VI.resolve_entry id text l = l.
Proof.
  unfold VI.resolve_entry. induction 1 as [|e l He _ IH]; simpl; [reflexivity|].
  rewrite (str_eqb_neq _ _ He). f_equal. exact IH.
Qed.

Lemma user_id_not_assistant_id (x y : jsstring) : lit "user-" ++ x <> lit "assistant-" ++ y.
Proof. discriminate. Qed.

(** Rewriting the placeholder that was appended behind the user's entry. *)
Lemma resolve_entry_placeholder (id : jsstring) (text : JSValue)
    (l : list VI.ConversationEntry) (u pl : VI.ConversationEntry) :
  Forall (fun e => VI.entry_id e <> id) l ->
  VI.entry_id u <> id -> VI.entry_id pl = id ->
  VI.resolve_entry id text (l ++ [u; pl])
  = l ++ [u; {| VI.entry_id := VI.entry_id pl; VI.entry_type := VI.entry_type pl;
                VI.entry_text := text; VI.entry_timestamp := VI.entry_timestamp pl;
                VI.entry_isProcessing := Some false |}].
Proof.
  intros Hl Hu Hpl. unfold VI.resolve_entry. rewrite map_app.
  fold (VI.resolve_entry id text l). rewrite (resolve_entry_fresh _ _ _ Hl).
  cbn [map]. rewrite (str_eqb_neq _ _ Hu), Hpl, str_eqb_refl. reflexivity.
Qed.




(** ** A second transcript while a request is in flight *)




(** ** What [speakText] does *)

Lemma VI_speakText_speaks (c : VI.Closure) (a : jsstring) (s : VI.Store)
    (y : Synthesis) (v : Voice) :
  VI.synthRef s = Some y -> VI.c_selectedVoice c = Some v -> is_empty (trim a) = false ->
  let u := {| utt_text := cleanText a; utt_voice := Some v; utt_rate := VI.c_speechRate c;
              utt_pitch := double_1_0; utt_volume := VI.c_speechVolume c |} in
  VI.calls (exec (VI.speakText c (JStr a)) s) = VI.calls s ++ [SynthCancel; SynthSpeak u]
  /\ VI.isSpeaking (exec (VI.speakText c (JStr a)) s) = true
  /\ VI.synthRef (exec (VI.speakText c (JStr a)) s)
     = Some {| synth_queue := [u]; synth_voices := synth_voices y |}.
Proof.
  intros Hy Hv Ha u. subst u.
  unfold VI.speakText, VI.synth_cancel, VI.synth_speak, VI.call, VI.setSynth, VI.setIsSpeaking.
  destruct c as [? ? ? ? ? cv ? ?], s as [? ? ? ? ? ? ? ? ? ? ? sy cs].
  cbn in Hy, Hv. subst cv sy.
  act. cbv [call_trim]. cbn -[cleanText trim]. rewrite Ha. cbn -[cleanText trim].
  rewrite <- app_assoc. repeat split.
Qed.

Lemma RT_speakText_speaks (c : RT.Closure) (a : jsstring) (s : RT.Store) (y : Synthesis) :
  RT.synthRef s = Some y -> is_empty (trim a) = false ->
  let u := {| utt_text := a; utt_voice := RT.englishVoice (synth_voices y);
              utt_rate := double_0_9; utt_pitch := double_1_0; utt_volume := double_0_8 |} in
  RT.calls (exec (RT.speakText c (JStr a)) s) = RT.calls s ++ [SynthCancel; SynthSpeak u]
  /\ RT.isSpeaking (exec (RT.speakText c (JStr a)) s) = true
  /\ RT.synthRef (exec (RT.speakText c (JStr a)) s)
     = Some {| synth_queue := [u]; synth_voices := synth_voices y |}.
Proof.
  intros Hy Ha u. subst u.
  unfold RT.speakText, RT.synth_cancel, RT.synth_speak, RT.call, RT.setSynth, RT.setIsSpeaking.
  destruct s as [? ? ? ? ? ? ? ? sy cs]. cbn in Hy. subst sy.
  act. cbv [call_trim]. cbn -[trim RT.englishVoice]. rewrite Ha. cbn -[trim RT.englishVoice].
  rewrite <- app_assoc. repeat split.
Qed.

(** The success path of [processUserInput], as three steps. *)
Lemma VI_resume_success (engine : EngineError -> jsstring) (p : VI.Pending)
    (r : Response) (v : JSValue) (a : jsstring) (s : VI.Store) :
  ok r = true -> json r = Normal v ->
  summary_or v (lit "I processed your request successfully.") = Normal (JStr a) ->
  exec (VI.processUserInput_resume engine p (Resolved r)) s
  = exec (VI.setIsProcessing false)
      (exec (if bool_decide (is_Some (VI.synthRef s))
                && bool_decide (is_Some (VI.c_selectedVoice (VI.p_closure p)))
                && negb (is_empty a)
             then VI.speakText (VI.p_closure p) (JStr a) else mret tt)
         (exec (VI.setConversation (VI.resolve_entry (VI.p_processingId p) (JStr a))) s)).
Proof.
  intros Hok Hjson Hsum. unfold VI.processUserInput_resume.
  unfold VI.setConversation, VI.setIsProcessing.
  act. rewrite Hok, Hjson, Hsum. cbn -[VI.speakText VI.resolve_entry].
  match goal with
  | |- context [(if ?b then VI.speakText ?c (JStr a) else _) ?s1] =>
      destruct b;
      [ pose proof (VI_speakText_frame c a s1) as (Hr & _);
        unfold result in Hr; destruct (VI.speakText c (JStr a) s1) as [s2 r2];
        simpl in Hr; subst r2 |]
  end; reflexivity.
Qed.

(** The success path of [processVoiceInput], as four steps. *)
Lemma RT_resume_success (engine : EngineError -> jsstring) (c : RT.Closure) (date : N)
    (r : Response) (v : JSValue) (a : jsstring) (s : RT.Store) :
  ok r = true -> json r = Normal v ->
  summary_or v (lit "I processed your request successfully!") = Normal (JStr a) ->
  exec (RT.processVoiceInput_resume engine c date (Resolved r)) s
  = exec (RT.setIsProcessing false)
      (exec (RT.speakText c (JStr a))
         (exec (RT.setConversation
                  (fun prev => prev ++ [ {| RT.msg_type := RT.ai; RT.msg_text := JStr a;
                                            RT.msg_timestamp := date |} ]))
            (exec (RT.setAiResponse (JStr a)) s))).
Proof.
  intros Hok Hjson Hsum. unfold RT.processVoiceInput_resume.
  unfold RT.setConversation, RT.setIsProcessing, RT.setAiResponse.
  act. rewrite Hok, Hjson, Hsum. cbn -[RT.speakText].
  match goal with
  | |- context [RT.speakText c (JStr a) ?s1] =>
      pose proof (RT_speakText_frame c a s1) as (Hr & _);
      unfold result in Hr; destruct (RT.speakText c (JStr a) s1) as [s2 r2];
      simpl in Hr; subst r2
  end; reflexivity.
Qed.

(** ** Stopping while a request is in flight *)





(** ** The text handed to the synthesizer *)

Example cleanText_ex1 :
  cleanText (lit "## Title" ++ [10] ++ lit "**bold** and *it* `code`" ++ [10; 10] ++ lit " end ")
  = lit "Title. bold and it code. end".
Proof. vm_compute. reflexivity. Qed.

(** A header marker is removed wherever it stands, also at the end of a
    longer run of hash signs; emphasis inside emphasis leaves nothing. *)
Example cleanText_ex2 : cleanText (lit "######## x ***y***") = lit "##x y".
Proof. vm_compute. reflexivity. Qed.

(** Markers without a partner on the same line stay. *)
Example cleanText_ex3 : cleanText (lit "2 * 3 = 6 `") = lit "2 * 3 = 6 `".
Proof. vm_compute. reflexivity. Qed.

Example decimal_ex : decimal 0 = lit "0" /\ decimal 503 = lit "503".
Proof. split; reflexivity. Qed.









(** ** The request body *)

Lemma slice_last_length {A} (n : nat) (l : list A) :
  length (slice_last n l) = Nat.min n (length l).
Proof. unfold slice_last. rewrite length_drop. lia. Qed.

Lemma slice_last_suffix {A} (n : nat) (l : list A) :
  take (length l - n) l ++ slice_last n l = l.
Proof. apply take_drop. Qed.



(** ** The fallback answer *)

Lemma summary_or_fallback (fields : list (jsstring * JSValue)) (s1 : JSValue) (fallback : jsstring) :
  get_optional (own_property (lit "results") fields) (lit "summary") = Normal s1 ->
  truthy s1 = false -> truthy (own_property (lit "summary") fields) = false ->
  summary_or (JObj fields) fallback = Normal (JStr fallback).
Proof.
  intros H1 H2 H3. unfold summary_or. cbn [get]. rewrite H1, H2.
  unfold js_or. rewrite H3. reflexivity.
Qed.

(** The VoiceInterface as it is mounted, with a voice selected: a question
    is heard and answered with a 2xx response that has no summary.  The
    fallback sentence is written into the log, but nothing is handed to
    the synthesizer: the request was sent by the [processUserInput] of the
    first render, which has no voice. *)
Lemma VI_fallback_not_spoken :
  let w := VI.run None v8 sid Mount (VI.boot [zira])
             [ VI.Voice_selected (Some zira); VI.Click_mainButton; VI.Media_settled true;
               VI.Rec_start; VI.Rec_result (clk 1000) (final "What is the weather");
               VI.Rec_end; VI.Fetch_settled (ok_response no_summary) ] in
  let s := VI.store w in
  VI.selectedVoice s = Some zira
  /\ map VI.entry_text (VI.conversation s)
     = [JStr (lit "What is the weather"); JStr (lit "I processed your request successfully.")]
  /\ VI.calls s
     = [ GetUserMedia; RecognitionStart;
         Fetch (lit "http://localhost:8000/api/agents/coordinate")
               (VI.request_body (VI.render sid (VI.initial [])) (lit "What is the weather")) ]
  /\ existsb is_speak (VI.calls s) = false
  /\ VI.synthRef s = Some {| synth_queue := []; synth_voices := [zira] |}
  /\ VI.isSpeaking s = false /\ VI.isProcessing s = false /\ VI.awaiting w = [].
Proof. vm_compute. repeat split. Qed.

(** C10 (as the code has it).  A 2xx response whose body is an object in
    which [results?.summary] and [summary] are both falsy is answered with
    the fixed fallback sentence.  The VoiceInterface, from the dispatch of
    a text that is not blank (the id of the placeholder being new), ends
    with the log longer by the user's text and the fallback sentence, and
    the processing flag clear; it speaks the sentence exactly when a
    synthesizer is there and the render that sent the request has a voice
    selected, and makes no call at all when that render has none.  The
    RealTimeVoiceChat appends the sentence (ending in an exclamation mark)
    to its log, shows it, clears the flag, and speaks it when a
    synthesizer is there. *)
Theorem fallback_answer
    (url : option jsstring) (engine : EngineError -> jsstring)
    (c : VI.Closure) (clock : VI.Clock) (text : jsstring) (s : VI.Store)
    (c' : RT.Closure) (date : N) (s' : RT.Store)
    (r : Response) (fields : list (jsstring * JSValue)) (s1 : JSValue) :
  let id := lit "assistant-" ++ decimal (VI.now_assistant clock) in
  let p := {| VI.p_closure := c; VI.p_processingId := id |} in
  let request := Fetch (VI.api_base url ++ lit "/api/agents/coordinate") (VI.request_body c text) in
  let sent := exec (VI.processUserInput url c clock text) s in
  let t := exec (VI.processUserInput_resume engine p (Resolved r)) sent in
  let t' := exec (RT.processVoiceInput_resume engine c' date (Resolved r)) s' in
  is_empty (trim text) = false ->
  Forall (fun e => VI.entry_id e <> id) (VI.conversation s) ->
  ok r = true -> json r = Normal (JObj fields) ->
  get_optional (own_property (lit "results") fields) (lit "summary") = Normal s1 ->
  truthy s1 = false -> truthy (own_property (lit "summary") fields) = false ->
  (result (VI.processUserInput url c clock text) s = Normal (Some p)
   /\ VI.conversation t
      = VI.conversation s
        ++ [ {| VI.entry_id := lit "user-" ++ decimal (VI.now_user clock);
                VI.entry_type := VI.user; VI.entry_text := JStr text;
                VI.entry_timestamp := VI.date_user clock; VI.entry_isProcessing := None |};
             {| VI.entry_id := id; VI.entry_type := VI.assistant;
                VI.entry_text := JStr (lit "I processed your request successfully.");
                VI.entry_timestamp := VI.date_assistant clock;
                VI.entry_isProcessing := Some false |} ]
   /\ VI.isProcessing t = false
   /\ (forall y v, VI.synthRef s = Some y -> VI.c_selectedVoice c = Some v ->
         VI.calls t
         = VI.calls s
           ++ [ request; SynthCancel;
                SynthSpeak {| utt_text := lit "I processed your request successfully.";
                              utt_voice := Some v;
                              utt_rate := VI.c_speechRate c;
                              utt_pitch := double_1_0;
                              utt_volume := VI.c_speechVolume c |} ]
         /\ VI.isSpeaking t = true)
   /\ (VI.c_selectedVoice c = None \/ VI.synthRef s = None ->
       VI.calls t = VI.calls s ++ [request] /\ VI.isSpeaking t = VI.isSpeaking s))
  /\ (RT.conversation t'
      = RT.conversation s'
        ++ [ {| RT.msg_type := RT.ai;
                RT.msg_text := JStr (lit "I processed your request successfully!");
                RT.msg_timestamp := date |} ]
      /\ RT.aiResponse t' = JStr (lit "I processed your request successfully!")
      /\ RT.isProcessing t' = false
      /\ (forall y, RT.synthRef s' = Some y ->
            RT.calls t'
            = RT.calls s'
              ++ [ SynthCancel;
                   SynthSpeak {| utt_text := lit "I processed your request successfully!";
                                 utt_voice := RT.englishVoice (synth_voices y);
                                 utt_rate := double_0_9; utt_pitch := double_1_0;
                                 utt_volume := double_0_8 |} ])).
Proof.
  intros id p request sent t t' Hft Hfresh Hok Hjson H1 H2 H3.
  pose proof (summary_or_fallback fields s1 (lit "I processed your request successfully.")
                H1 H2 H3) as Hs.
  pose proof (summary_or_fallback fields s1 (lit "I processed your request successfully!")
                H1 H2 H3) as Hs'.
  split.
  - assert (Hsent : VI.processUserInput url c clock text s = (sent, Normal (Some p))).
    { subst sent. unfold VI.processUserInput. rewrite Hft. reflexivity. }
    assert (Hconv : VI.conversation sent
                    = VI.conversation s
                      ++ [ {| VI.entry_id := lit "user-" ++ decimal (VI.now_user clock);
                              VI.entry_type := VI.user; VI.entry_text := JStr text;
                              VI.entry_timestamp := VI.date_user clock;
                              VI.entry_isProcessing := None |};
                           {| VI.entry_id := id; VI.entry_type := VI.assistant;
                              VI.entry_text := JStr (lit "Processing your request...");
                              VI.entry_timestamp := VI.date_assistant clock;
                              VI.entry_isProcessing := Some true |} ]).
    { subst sent. unfold VI.processUserInput. rewrite Hft. reflexivity. }
    assert (Hcalls : VI.calls sent = VI.calls s ++ [request]).
    { subst sent. unfold VI.processUserInput. rewrite Hft. reflexivity. }
    assert (Hsynth : VI.synthRef sent = VI.synthRef s).
    { subst sent. unfold VI.processUserInput. rewrite Hft. reflexivity. }
    assert (Hspk : VI.isSpeaking sent = VI.isSpeaking s).
    { subst sent. unfold VI.processUserInput. rewrite Hft. reflexivity. }
    clearbody sent.
    split; [unfold result; rewrite Hsent; reflexivity|].
    subst t. rewrite (VI_resume_success engine p r _ _ sent Hok Hjson Hs).
    set (fb := lit "I processed your request successfully.") in *.
    set (s0 := exec (VI.setConversation _) sent).
    assert (Hfb : is_empty (trim fb) = false) by reflexivity.
    assert (Hfb0 : is_empty fb = false) by reflexivity.
    assert (Hclean : cleanText fb = fb) by (vm_compute; reflexivity).
    assert (Hc0 : VI.conversation s0
                  = VI.conversation s
                    ++ [ {| VI.entry_id := lit "user-" ++ decimal (VI.now_user clock);
                            VI.entry_type := VI.user; VI.entry_text := JStr text;
                            VI.entry_timestamp := VI.date_user clock;
                            VI.entry_isProcessing := None |};
                         {| VI.entry_id := id; VI.entry_type := VI.assistant;
                            VI.entry_text := JStr fb;
                            VI.entry_timestamp := VI.date_assistant clock;
                            VI.entry_isProcessing := Some false |} ]).
    { subst s0. cbn [exec VI.setConversation modify fst VI.conversation VI.p_processingId p].
      rewrite Hconv.
      rewrite resolve_entry_placeholder;
        [reflexivity | exact Hfresh | apply user_id_not_assistant_id | reflexivity]. }
    pose proof (VI_speakText_frame c fb s0) as (_ & Hf & _).
    cbn [VI.p_closure p].
    split; [|split; [|split]].
    + destruct (_ && _ && _); [rewrite <- Hc0; exact Hf | exact Hc0].
    + reflexivity.
    + intros y v Hy Hv. rewrite Hsynth, Hy, Hv, Hfb0.
      rewrite !bool_decide_eq_true_2 by eauto. cbn [andb negb].
      assert (Hy0 : VI.synthRef s0 = Some y) by (subst s0; cbn; rewrite Hsynth; exact Hy).
      pose proof (VI_speakText_speaks c fb s0 y v Hy0 Hv Hfb) as (Hc & Hsp & _).
      rewrite Hclean in Hc.
      split; [|exact Hsp].
      change (VI.calls (exec (VI.setIsProcessing false) ?x)) with (VI.calls x).
      rewrite Hc. change (VI.calls s0) with (VI.calls sent). rewrite Hcalls, <- app_assoc.
      reflexivity.
    + intros Hno.
      assert (Hg : bool_decide (is_Some (VI.synthRef sent))
                   && bool_decide (is_Some (VI.c_selectedVoice c)) = false).
      { destruct Hno as [Hv | Hy].
        - rewrite Hv. rewrite (bool_decide_eq_false_2 (is_Some None)) by (intros [? [=]]).
          apply andb_false_r.
        - rewrite Hsynth, Hy.
          rewrite (bool_decide_eq_false_2 (is_Some None)) by (intros [? [=]]). reflexivity. }
      rewrite Hg. cbn [andb]. split; [exact Hcalls | exact Hspk].
  - subst t'. rewrite (RT_resume_success engine c' date r _ _ s' Hok Hjson Hs').
    set (fb := lit "I processed your request successfully!") in *.
    set (s0 := exec (RT.setConversation _) _).
    assert (Hfb : is_empty (trim fb) = false) by reflexivity.
    pose proof (RT_speakText_frame c' fb s0) as (_ & Hf & _ & _ & Ha & _).
    split; [exact Hf|]. split; [exact Ha|]. split; [reflexivity|].
    intros y Hy.
    pose proof (RT_speakText_speaks c' fb s0 y Hy Hfb) as (Hc & _). exact Hc.
Qed.

Lemma fallback_answer_witness :
  let fallback := lit "I processed your request successfully." in
  let answered c :=
    exec (VI.processUserInput_resume v8
            {| VI.p_closure := c; VI.p_processingId := lit "assistant-1000" |}
            (ok_response no_summary))
      (exec (VI.processUserInput None c (clk 1000) (lit "What is the weather")) vi_ready) in
  (map VI.entry_text (VI.conversation (answered (VI.render sid vi_ready)))
     = [JStr (lit "What is the weather"); JStr fallback]
   /\ VI.calls (answered (VI.render sid vi_ready))
      = [ Fetch (lit "http://localhost:8000/api/agents/coordinate")
                (VI.request_body (VI.render sid vi_ready) (lit "What is the weather"));
          SynthCancel;
          SynthSpeak {| utt_text := fallback; utt_voice := Some zira; utt_rate := double_0_9;
                        utt_pitch := double_1_0; utt_volume := double_0_8 |} ]
   /\ VI.calls (answered (VI.render sid (VI.initial [])))
      = [ Fetch (lit "http://localhost:8000/api/agents/coordinate")
                (VI.request_body (VI.render sid (VI.initial [])) (lit "What is the weather")) ])
  /\ RT.conversation
       (exec (RT.processVoiceInput_resume v8 rt_listening 1500 (ok_response no_summary))
          (RT.initial [zira]))
     = [ {| RT.msg_type := RT.ai;
            RT.msg_text := JStr (lit "I processed your request successfully!");
            RT.msg_timestamp := 1500 |} ].
Proof.
  intros fallback answered.
  assert (H : forall c : VI.Closure,
            Forall (fun e => VI.entry_id e <> lit "assistant-" ++ decimal (VI.now_assistant (clk 1000)))
              (VI.conversation vi_ready)) by (intros _; exact (List.Forall_nil _)).
  pose proof (fun c : VI.Closure =>
                fallback_answer None v8 c (clk 1000) (lit "What is the weather") vi_ready
                  rt_listening 1500 (RT.initial [zira])
                  {| status := 200; statusText := lit "OK"; json := Normal no_summary |}
                  [(lit "results", JObj [(lit "summary", JStr [])]);
                   (lit "status", JStr (lit "done"))]
                  (JStr []) eq_refl (H c) eq_refl eq_refl eq_refl eq_refl eq_refl) as F.
  destruct (F (VI.render sid vi_ready)) as ((_ & Hlog & _ & Hspeak & _) & (Hrt & _)).
  destruct (F (VI.render sid (VI.initial []))) as ((_ & _ & _ & _ & Hsilent) & _).
  split; [|exact Hrt]. split; [|split].
  - exact (f_equal (map VI.entry_text) Hlog).
  - exact (proj1 (Hspeak _ zira eq_refl eq_refl)).
  - exact (proj1 (Hsilent (or_introl eq_refl))).
Defined.

(** * Further properties of the code *)

(** ** [cleanText] *)

Lemma trimStart_suffix (s : jsstring) : exists p, s = p ++ trimStart s.
Proof.
  induction s as [|c s [p IH]]; [exists []; reflexivity|].
  simpl. destruct (is_space c).
  - exists (c :: p). simpl. f_equal. exact IH.
  - exists []. reflexivity.
Qed.

Lemma trimEnd_prefix (s : jsstring) : exists q, s = trimEnd s ++ q.
Proof.
  destruct (trimStart_suffix (rev s)) as [p Hp].
  exists (rev p). unfold trimEnd. rewrite <- rev_app_distr, <- Hp, rev_involutive. reflexivity.
Qed.

Lemma single_spaced_suffix (p s : jsstring) :
  single_spaced (p ++ s) = true -> single_spaced s = true.
Proof.
  induction p as [|a p IH]; [trivial|].
  intros H. apply IH. simpl in H. destruct (p ++ s); [reflexivity|].
  apply andb_true_iff in H. apply H.
Qed.

Lemma single_spaced_prefix (s q : jsstring) :
  single_spaced (s ++ q) = true -> single_spaced s = true.
Proof.
  induction s as [|a s IH]; [reflexivity|].
  simpl. destruct s as [|b s]; [reflexivity|].
  simpl app. intros H. apply andb_true_iff in H. destruct H as [H1 H2].
  rewrite H1. apply IH. exact H2.
Qed.

Lemma single_spaced_trim (s : jsstring) : single_spaced s = true -> single_spaced (trim s) = true.
Proof.
  intros H. unfold trim.
  destruct (trimStart_suffix s) as [p Hp].
  destruct (trimEnd_prefix (trimStart s)) as [q Hq].
  rewrite Hp in H. apply single_spaced_suffix in H.
  rewrite Hq in H. apply single_spaced_prefix in H. exact H.
Qed.

Lemma replace_runs_single_spaced (inrun : bool) (s : jsstring) :
  single_spaced (replace_runs is_space (lit " ") inrun s) = true
  /\ (inrun = true ->
      match replace_runs is_space (lit " ") inrun s with
      | c :: _ => c <> 32
      | [] => True
      end).
Proof.
  change (lit " ") with [32].
  revert inrun. induction s as [|c s IH]; intros inrun; [split; [reflexivity | intros _; exact I]|].
  cbn [replace_runs app]. destruct (is_space c) eqn:E.
  - destruct inrun.
    + apply IH.
    + split; [|discriminate].
      destruct (IH true) as [H1 H2]. specialize (H2 eq_refl).
      change (lit " " ++ ?x) with (32 :: x).
      destruct (replace_runs is_space [32] true s) as [|b r]; [reflexivity|].
      change (single_spaced (32 :: b :: r))
        with (negb ((32 =? 32) && (b =? 32)) && single_spaced (b :: r)).
      rewrite (proj2 (N.eqb_neq b 32) H2), H1, andb_false_r. reflexivity.
  - assert (Hc : c <> 32) by (intros ->; discriminate E).
    split; [|intros _; exact Hc].
    destruct (IH false) as [H1 _].
    destruct (replace_runs is_space [32] false s) as [|b r]; [reflexivity|].
    change (single_spaced (c :: b :: r))
      with (negb ((c =? 32) && (b =? 32)) && single_spaced (b :: r)).
    rewrite (proj2 (N.eqb_neq c 32) Hc), H1. reflexivity.
Qed.

(** X1.  The text that VoiceInterface hands to the synthesizer never has
    two spaces in a row and neither starts nor ends with white space. *)
Theorem cleanText_normalised (t : jsstring) :
  single_spaced (cleanText t) = true /\ trim (cleanText t) = cleanText t.
Proof.
  split.
  - unfold cleanText. apply single_spaced_trim, replace_runs_single_spaced.
  - unfold cleanText. apply trim_idem.
Qed.

Lemma strip_pair_absent (h : N) (d s : jsstring) :
  Forall (fun c => c <> h) s -> strip_pair (h :: d) s = s.
Proof.
  unfold strip_pair. induction 1 as [|c s Hc _ IH]; [reflexivity|].
  cbn [strip_pair_from startsWith].
  rewrite (proj2 (N.eqb_neq h c)) by congruence. cbn [andb]. f_equal. exact IH.
Qed.

Lemma strip_headers_absent (s : jsstring) :
  Forall (fun c => c <> 35) s -> strip_headers s = s.
Proof.
  unfold strip_headers. induction 1 as [|c s Hc _ IH]; [reflexivity|].
  cbn [strip_headers_from].
  assert (H : header_match (c :: s) = None).
  { unfold header_match. cbn [find hashes_space].
    rewrite (proj2 (N.eqb_neq c 35) Hc). reflexivity. }
  rewrite H. f_equal. exact IH.
Qed.

Lemma replace_runs_absent (p : N -> bool) (r s : jsstring) :
  Forall (fun c => p c = false) s -> replace_runs p r false s = s.
Proof.
  induction 1 as [|c s Hc _ IH]; [reflexivity|].
  simpl. rewrite Hc. f_equal. exact IH.
Qed.

(** X2.  On a text without asterisk, backquote, hash sign and newline,
    [cleanText] only normalises white space. *)
Theorem cleanText_plain (t : jsstring) :
  Forall (fun c => c <> 42 /\ c <> 96 /\ c <> 35 /\ c <> 10) t ->
  cleanText t = trim (replace_runs is_space (lit " ") false t).
Proof.
  intros H. unfold cleanText.
  change (lit "**") with [42; 42]. change (lit "*") with [42]. change (lit "`") with [96].
  assert (H42 : Forall (fun c => c <> 42) t) by (eapply Forall_impl; [exact H | cbn; tauto]).
  assert (H96 : Forall (fun c => c <> 96) t) by (eapply Forall_impl; [exact H | cbn; tauto]).
  assert (H35 : Forall (fun c => c <> 35) t) by (eapply Forall_impl; [exact H | cbn; tauto]).
  assert (H10 : Forall (fun c => (10 =? c) = false) t).
  { eapply Forall_impl; [exact H|]. intros c (_ & _ & _ & Hc).
    apply (proj2 (N.eqb_neq 10 c)). congruence. }
  rewrite (strip_pair_absent 42 [42] t H42), (strip_pair_absent 42 [] t H42),
    (strip_pair_absent 96 [] t H96), (strip_headers_absent t H35),
    (replace_runs_absent (N.eqb 10) _ t H10).
  reflexivity.
Qed.

Lemma cleanText_plain_witness :
  cleanText (lit " What  is the weather? ") = lit "What is the weather?".
Proof.
  rewrite cleanText_plain; [reflexivity|].
  repeat constructor; discriminate.
Defined.
(** ** Edge cases of the handlers *)

(** Without a selected voice the VoiceInterface's [speakText] returns at
    once, whatever it is given. *)
Lemma VI_speakText_without_voice (c : VI.Closure) (x : JSValue) (s : VI.Store) :
  VI.c_selectedVoice c = None -> VI.speakText c x s = (s, Normal tt).
Proof.
  intros Hv. unfold VI.speakText. act. rewrite Hv.
  rewrite (bool_decide_eq_false_2 (is_Some None)) by (intros [? [=]]).
  rewrite orb_true_r. reflexivity.
Qed.

(** X3.  [speakText] does nothing at all for a blank text, and in
    VoiceInterface nothing for any value while no voice is selected: the
    speech that is playing is not cancelled either. *)
Theorem speakText_silent
    (c : VI.Closure) (s : VI.Store) (c' : RT.Closure) (s' : RT.Store) (a : jsstring) (x : JSValue) :
  (is_empty (trim a) = true ->
     VI.speakText c (JStr a) s = (s, Normal tt) /\ RT.speakText c' (JStr a) s' = (s', Normal tt))
  /\ (VI.c_selectedVoice c = None -> VI.speakText c x s = (s, Normal tt)).
Proof.
  split.
  - intros Ha. unfold VI.speakText, RT.speakText. act. cbv [call_trim]. split.
    + destruct (negb _ || negb _); [reflexivity|]. rewrite Ha. reflexivity.
    + destruct (RT.synthRef s'); [|reflexivity]. rewrite Ha. reflexivity.
  - apply VI_speakText_without_voice.
Qed.

Lemma speakText_silent_witness :
  VI.speakText (VI.render sid vi_speaking) (JStr (lit "  ")) vi_speaking = (vi_speaking, Normal tt)
  /\ VI.speakText (VI.render sid (VI.initial [zira])) (JNum double_1_0) vi_speaking
     = (vi_speaking, Normal tt).
Proof.
  split.
  - apply (speakText_silent (VI.render sid vi_speaking) vi_speaking rt_idle rt_speaking
             (lit "  ") JNull). reflexivity.
  - apply (speakText_silent (VI.render sid (VI.initial [zira])) vi_speaking rt_idle rt_speaking
             (lit "  ") (JNum double_1_0)). reflexivity.
Defined.

(** X4.  A result event whose final part is blank sends no request, logs
    nothing and leaves the processing flag alone, in both components. *)
Theorem blank_transcript_ignored
    (url : option jsstring) (c : VI.Closure) (clock : VI.Clock) (s : VI.Store)
    (c' : RT.Closure) (date : N) (s' : RT.Store) (results : list SpeechResult) :
  is_empty (trim (finalTranscript results)) = true ->
  let t := exec (VI.recognition_onresult url c clock results) s in
  let t' := exec (RT.recognition_onresult c' date results) s' in
  (result (VI.recognition_onresult url c clock results) s = Normal None
   /\ VI.calls t = VI.calls s /\ VI.conversation t = VI.conversation s
   /\ VI.isProcessing t = VI.isProcessing s)
  /\ (result (RT.recognition_onresult c' date results) s' = Normal false
      /\ RT.calls t' = RT.calls s' /\ RT.conversation t' = RT.conversation s'
      /\ RT.isProcessing t' = RT.isProcessing s').
Proof.
  intros H t t'. subst t t'.
  unfold VI.recognition_onresult, RT.recognition_onresult,
    VI.processUserInput, RT.processVoiceInput.
  rewrite trim_idem, H. cbn [orb].
  destruct (negb (is_empty (finalTranscript results))); repeat split.
Qed.

Lemma blank_transcript_ignored_witness :
  VI.calls (exec (VI.recognition_onresult None (VI.render sid vi_ready) (clk 1000) (final "   "))
              vi_ready) = []
  /\ result (RT.recognition_onresult rt_listening 1000 (final "   ")) (RT.initial [zira])
     = Normal false.
Proof.
  pose proof (blank_transcript_ignored None (VI.render sid vi_ready) (clk 1000) vi_ready
                rt_listening 1000 (RT.initial [zira]) (final "   ") eq_refl)
    as ((_ & H1 & _) & (H2 & _)).
  split; [exact H1 | exact H2].
Defined.

(** X5.  Writing an answer into the log keeps the number, order, ids,
    speakers and time stamps of the entries; entries of another id stay as
    they are, and every entry of the given id then shows the answer and is
    no longer marked as processing. *)
Theorem resolve_entry_keeps_shape (id : jsstring) (text : JSValue) (l : list VI.ConversationEntry) :
  length (VI.resolve_entry id text l) = length l
  /\ map VI.entry_id (VI.resolve_entry id text l) = map VI.entry_id l
  /\ map VI.entry_type (VI.resolve_entry id text l) = map VI.entry_type l
  /\ map VI.entry_timestamp (VI.resolve_entry id text l) = map VI.entry_timestamp l
  /\ (forall e, In e l -> VI.entry_id e <> id -> In e (VI.resolve_entry id text l))
  /\ Forall (fun e => VI.entry_id e = id ->
                      VI.entry_text e = text /\ VI.entry_isProcessing e = Some false)
       (VI.resolve_entry id text l).
Proof.
  unfold VI.resolve_entry. repeat split.
  - apply length_map.
  - induction l as [|e l IH]; [reflexivity|]. cbn [map]. rewrite IH.
    destruct (str_eqb (VI.entry_id e) id); reflexivity.
  - induction l as [|e l IH]; [reflexivity|]. cbn [map]. rewrite IH.
    destruct (str_eqb (VI.entry_id e) id); reflexivity.
  - induction l as [|e l IH]; [reflexivity|]. cbn [map]. rewrite IH.
    destruct (str_eqb (VI.entry_id e) id); reflexivity.
  - intros e He Hid. apply in_map_iff. exists e. split; [|exact He].
    rewrite (str_eqb_neq _ _ Hid). reflexivity.
  - induction l as [|e l IH]; [constructor|]. cbn [map]. constructor; [|exact IH].
    destruct (str_eqb (VI.entry_id e) id) eqn:E; cbn.
    + intros _. split; reflexivity.
    + intros Hid. unfold str_eqb in E. apply bool_decide_eq_false in E. contradiction.
Qed.

(** X6.  A 2xx response whose body cannot be read is a failure: if
    [response.json()] rejects with [e] the request ends as if [fetch] had
    been rejected with [e]; a body that is JSON [null] ends as a rejection
    with the TypeError of reading [results] of [null]. *)
Theorem unreadable_body_is_failure
    (engine : EngineError -> jsstring) (p : VI.Pending) (s : VI.Store)
    (c' : RT.Closure) (date : N) (s' : RT.Store) (r : Response) (e : Thrown) :
  ok r = true ->
  json r = Throw e \/ (json r = Normal JNull /\ e = Raised (ReadOfNullish (lit "results"))) ->
  VI.processUserInput_resume engine p (Resolved r) s
    = VI.processUserInput_resume engine p (Rejected e) s
  /\ RT.processVoiceInput_resume engine c' date (Resolved r) s'
     = RT.processVoiceInput_resume engine c' date (Rejected e) s'.
Proof.
  intros Hok [Hj | [Hj ->]];
    unfold VI.processUserInput_resume, RT.processVoiceInput_resume;
    act; rewrite Hok, Hj; split; reflexivity.
Qed.

Lemma unreadable_body_is_failure_witness :
  VI.error (exec (VI.processUserInput_resume v8
                    {| VI.p_closure := VI.render sid vi_ready;
                       VI.p_processingId := lit "assistant-1000" |}
                    (ok_response JNull)) vi_ready)
  = lit "Sorry, I encountered an error: Cannot read properties of null (reading 'results')".
Proof.
  unfold exec, ok_response.
  rewrite (proj1 (unreadable_body_is_failure v8
                    {| VI.p_closure := VI.render sid vi_ready;
                       VI.p_processingId := lit "assistant-1000" |}
                    vi_ready rt_listening 1500 (RT.initial [zira])
                    {| status := 200; statusText := lit "OK"; json := Normal JNull |}
                    (Raised (ReadOfNullish (lit "results")))
                    eq_refl (or_intror (conj eq_refl eq_refl)))).
  reflexivity.
Defined.

Lemma get_optional_field (v : JSValue) (key : jsstring) :
  get_optional v key = Normal (field v key).
Proof. destruct v; reflexivity. Qed.

(** X7.  For a body that is an object the answer is the first truthy one
    of [results.summary], [summary] and the fallback; with a fallback that
    is not empty the answer is always truthy, and a truthy
    [results.summary] wins over [summary]. *)
Theorem summary_precedence (fields : list (jsstring * JSValue)) (fallback : jsstring) :
  let s1 := field (own_property (lit "results") fields) (lit "summary") in
  let s2 := own_property (lit "summary") fields in
  summary_or (JObj fields) fallback = Normal (js_or s1 (js_or s2 (JStr fallback)))
  /\ (truthy s1 = true -> summary_or (JObj fields) fallback = Normal s1)
  /\ (is_empty fallback = false ->
      exists a, summary_or (JObj fields) fallback = Normal a /\ truthy a = true).
Proof.
  intros s1 s2.
  assert (H : summary_or (JObj fields) fallback = Normal (js_or s1 (js_or s2 (JStr fallback)))).
  { unfold summary_or. cbn [get]. rewrite get_optional_field. fold s1.
    fold s2. unfold js_or. destruct (truthy s1), (truthy s2); reflexivity. }
  split; [exact H|]. split.
  - intros H1. rewrite H. unfold js_or at 1. rewrite H1. reflexivity.
  - intros Hf. eexists. split; [exact H|].
    unfold js_or. destruct (truthy s1) eqn:E1; [exact E1|].
    destruct (truthy s2) eqn:E2; [exact E2|]. cbn. rewrite Hf. reflexivity.
Qed.

Lemma summary_precedence_witness :
  summary_or (JObj [ (lit "results", JObj [(lit "summary", JStr (lit "It is sunny."))]);
                     (lit "summary", JStr (lit "Weather report")) ])
    (lit "I processed your request successfully.")
  = Normal (JStr (lit "It is sunny.")).
Proof.
  apply (summary_precedence
           [ (lit "results", JObj [(lit "summary", JStr (lit "It is sunny."))]);
             (lit "summary", JStr (lit "Weather report")) ]
           (lit "I processed your request successfully.")).
  reflexivity.
Defined.



(** X9.  Starting the recognizer when it is already started: the
    VoiceInterface catches the exception, shows a message and carries on;
    the RealTimeVoiceChat clears transcript and error and lets the
    exception escape.  [startListening_resume] never throws. *)
Theorem start_on_started_recognizer
    (granted : bool) (s : VI.Store) (c' : RT.Closure) (s' : RT.Store) :
  result (VI.startListening_resume granted) s = Normal tt
  /\ (VI.recognitionRef s = Some {| rec_started := true |} ->
      let t := exec (VI.startListening_resume true) s in
      VI.error t = lit "Failed to start speech recognition. Please try again."
      /\ VI.calls t = VI.calls s /\ VI.permissionGranted t = true)
  /\ (RT.recognitionRef s' = Some {| rec_started := true |} ->
      RT.c_isListening c' = false -> RT.c_isProcessing c' = false ->
      let t' := exec (RT.startListening c') s' in
      result (RT.startListening c') s' = Throw (Raised InvalidState)
      /\ RT.calls t' = RT.calls s' /\ RT.transcript t' = [] /\ RT.error t' = []).
Proof.
  split; [|split].
  - unfold VI.startListening_resume, VI.recognition_start.
    destruct granted, s as [? ? ? ? ? ? ? ? ? ? [[[|]]|] ? cs]; reflexivity.
  - intros H. destruct s as [? ? ? ? ? ? ? ? ? ? rr ? cs]. cbn in H. subst rr.
    repeat split.
  - intros H Hl Hp. unfold RT.startListening. rewrite Hl, Hp.
    destruct s' as [? ? ? ? ? ? ? rr ? cs]. cbn in H. subst rr. repeat split.
Qed.

Lemma start_on_started_recognizer_witness :
  let started := exec RT.recognition_start (RT.initial [zira]) in
  result (RT.startListening rt_idle) started = Throw (Raised InvalidState).
Proof.
  intros started.
  apply (start_on_started_recognizer true vi_ready rt_idle started); reflexivity.
Defined.

(** X10.  Every recognition error ends listening and shows a message that
    is not empty, without any platform call; the permission flag is
    cleared for "not-allowed" and kept for every other kind.  The
    RealTimeVoiceChat shows the kind itself. *)
Theorem recognition_error_reported (kind : jsstring) (s : VI.Store) (s' : RT.Store) :
  let t := exec (VI.recognition_onerror kind) s in
  let t' := exec (RT.recognition_onerror kind) s' in
  (VI.isListening t = false /\ is_empty (VI.error t) = false
   /\ VI.calls t = VI.calls s /\ VI.isProcessing t = VI.isProcessing s
   /\ VI.permissionGranted t
      = (if str_eqb kind (lit "not-allowed") then false else VI.permissionGranted s))
  /\ (RT.isListening t' = false /\ RT.error t' = lit "Speech recognition error: " ++ kind
      /\ RT.calls t' = RT.calls s' /\ RT.isProcessing t' = RT.isProcessing s').
Proof.
  intros t t'. subst t t'. split; [|repeat split].
  unfold VI.recognition_onerror.
  destruct (str_eqb kind (lit "no-speech")) eqn:E1; [|
  destruct (str_eqb kind (lit "audio-capture")) eqn:E2; [|
  destruct (str_eqb kind (lit "not-allowed")) eqn:E3; [|
  destruct (str_eqb kind (lit "network")) eqn:E4]]].
  - unfold str_eqb in E1. apply bool_decide_eq_true in E1. subst kind. repeat split.
  - unfold str_eqb in E2. apply bool_decide_eq_true in E2. subst kind. repeat split.
  - repeat split.
  - repeat split.
  - repeat split.
Qed.

(** X11.  Clearing the chat while a request is in flight: the
    VoiceInterface then has no placeholder left, so the answer never shows
    in the log, yet it is still spoken; the RealTimeVoiceChat logs the
    answer as the only entry. *)
Theorem clear_then_response
    (engine : EngineError -> jsstring) (p : VI.Pending) (c : VI.Closure) (s : VI.Store)
    (c' : RT.Closure) (date : N) (s' : RT.Store)
    (r : Response) (v : JSValue) (a : jsstring) :
  ok r = true -> json r = Normal v ->
  summary_or v (lit "I processed your request successfully.") = Normal (JStr a) ->
  summary_or v (lit "I processed your request successfully!") = Normal (JStr a) ->
  let cleared := exec (VI.clearConversation c) s in
  let t := exec (VI.processUserInput_resume engine p (Resolved r)) cleared in
  let t' := exec (RT.processVoiceInput_resume engine c' date (Resolved r))
              (exec (RT.setConversation (fun _ => [])) s') in
  (VI.conversation cleared = [] /\ VI.isProcessing cleared = VI.isProcessing s
   /\ VI.conversation t = []
   /\ (is_Some (VI.synthRef s) -> is_Some (VI.c_selectedVoice (VI.p_closure p)) ->
       is_empty (trim a) = false ->
       VI.isSpeaking t = true /\ existsb is_speak (VI.calls t) = true))
  /\ RT.conversation t'
     = [ {| RT.msg_type := RT.ai; RT.msg_text := JStr a; RT.msg_timestamp := date |} ].
Proof.
  intros Hok Hjson Hsum Hsum' cleared t t'.
  assert (Hcl : VI.conversation cleared = [] /\ VI.isProcessing cleared = VI.isProcessing s
                /\ (is_Some (VI.synthRef s) -> is_Some (VI.synthRef cleared))).
  { subst cleared. unfold VI.clearConversation, VI.stopSpeaking, VI.stopListening,
      VI.recognition_stop, VI.synth_cancel, VI.call, VI.setSynth, VI.setIsSpeaking,
      VI.setConversation, VI.setCurrentTranscript, VI.setError.
    destruct s as [? ? ? ? ? ? ? ? ? ? [rec|] [y|] cs], (VI.c_isListening c);
      act; cbn; repeat split; auto; intros [? [=]]. }
  destruct Hcl as (Hc & Hp & Hy).
  split.
  - split; [exact Hc|]. split; [exact Hp|].
    subst t. rewrite (VI_resume_success engine p r v a cleared Hok Hjson Hsum).
    set (s1 := exec (VI.setConversation _) cleared).
    assert (H1 : VI.conversation s1 = []) by (subst s1; cbn; rewrite Hc; reflexivity).
    assert (H2 : VI.synthRef s1 = VI.synthRef cleared) by reflexivity.
    split.
    + destruct (_ && _ && _); [|exact H1].
      pose proof (VI_speakText_frame (VI.p_closure p) a s1) as (_ & Hf & _).
      rewrite <- H1. exact Hf.
    + intros Hs Hv Ha. specialize (Hy Hs). destruct Hy as [y0 Hy0], Hv as [v0 Hv0].
      rewrite Hy0, Hv0.
      assert (Hne : is_empty a = false) by (apply is_empty_trim, Ha).
      rewrite Hne. rewrite !bool_decide_eq_true_2 by eauto. cbn [andb negb].
      rewrite <- H2 in Hy0.
      pose proof (VI_speakText_speaks (VI.p_closure p) a s1 y0 v0 Hy0 Hv0 Ha) as (Hcalls & Hsp & _).
      split; [exact Hsp|].
      change (VI.calls (exec (VI.setIsProcessing false) ?x)) with (VI.calls x).
      rewrite Hcalls, existsb_app. cbn. apply orb_true_r.
  - subst t'. rewrite (RT_resume_success engine c' date r v a _ Hok Hjson Hsum').
    set (s1 := exec (RT.setConversation _) (exec (RT.setAiResponse _) _)).
    pose proof (RT_speakText_frame c' a s1) as (_ & Hf & _).
    change (RT.conversation (exec (RT.setIsProcessing false) ?x)) with (RT.conversation x).
    rewrite Hf. reflexivity.
Qed.

Lemma clear_then_response_witness :
  let c := VI.render sid vi_ready in
  let s1 := exec (VI.processUserInput None c (clk 1000) (lit "What is the weather")) vi_ready in
  VI.conversation
    (exec (VI.processUserInput_resume v8
             {| VI.p_closure := c; VI.p_processingId := lit "assistant-1000" |}
             (ok_response sunny))
       (exec (VI.clearConversation (VI.render sid s1)) s1)) = [].
Proof.
  intros c s1.
  apply (clear_then_response v8
           {| VI.p_closure := c; VI.p_processingId := lit "assistant-1000" |}
           (VI.render sid s1) s1 rt_listening 1500 (RT.initial [zira])
           {| status := 200; statusText := lit "OK"; json := Normal sunny |}
           sunny (lit "It is sunny.")); reflexivity.
Defined.

(** ** Choosing a voice *)

Lemma startsWith_app (p q s : jsstring) : startsWith (p ++ q) s = true -> startsWith p s = true.
Proof.
  revert s. induction p as [|a p IH]; intros s H; [reflexivity|].
  destruct s as [|b s]; [discriminate H|].
  cbn [app startsWith] in *. apply andb_true_iff in H. destruct H as [H1 H2].
  rewrite H1. apply IH. exact H2.
Qed.

Lemma preferred_match_some (toLowerCase : jsstring -> jsstring)
    (preferred : list jsstring) (voices : list Voice) (v : Voice) :
  preferred_match toLowerCase preferred voices = Some v ->
  In v voices
  /\ exists p, In p preferred
               /\ includes (split_head (lit " - ") (toLowerCase p))
                    (toLowerCase (voice_name v)) = true.
Proof.
  induction preferred as [|p rest IH]; [discriminate|].
  cbn [preferred_match].
  destruct (find _ voices) as [w|] eqn:E.
  - intros [= <-]. apply find_some in E. destruct E as [Hin Hm].
    split; [exact Hin|]. exists p. split; [left; reflexivity | exact Hm].
  - intros H. destruct (IH H) as (Hin & q & Hq & Hm).
    split; [exact Hin|]. exists q. split; [right; exact Hq | exact Hm].
Qed.

(** X12.  [loadVoices] selects no voice only when the synthesizer has
    none, and a selected voice is always one of the synthesizer's.  When
    some voice is English, the selected voice is English or bears one of
    the preferred names: a voice of another language is never preferred to
    an English one for its position in the list. *)
Theorem bestVoice_sound (toLowerCase : jsstring -> jsstring) (voices : list Voice) :
  (bestVoice toLowerCase voices = None <-> voices = [])
  /\ (forall v, bestVoice toLowerCase voices = Some v -> In v voices)
  /\ (forall v, bestVoice toLowerCase voices = Some v ->
        Exists (fun w => startsWith (lit "en") (voice_lang w) = true) voices ->
        startsWith (lit "en") (voice_lang v) = true
        \/ exists p, In p preferredVoices
                     /\ includes (split_head (lit " - ") (toLowerCase p))
                          (toLowerCase (voice_name v)) = true).
Proof.
  unfold bestVoice.
  destruct (preferred_match toLowerCase preferredVoices voices) as [v0|] eqn:E0.
  { apply preferred_match_some in E0. destruct E0 as (Hin & Hp).
    split; [|split].
    - split; [discriminate | intros ->; destruct Hin].
    - intros v [= <-]. exact Hin.
    - intros v [= <-] _. right. exact Hp. }
  destruct (find (fun voice => startsWith (lit "en-US") (voice_lang voice)) voices)
    as [v1|] eqn:E1.
  { apply find_some in E1. destruct E1 as (Hin & Hl).
    split; [|split].
    - split; [discriminate | intros ->; destruct Hin].
    - intros v [= <-]. exact Hin.
    - intros v [= <-] _. left. apply (startsWith_app (lit "en") (lit "-US")), Hl. }
  destruct (find (fun voice => startsWith (lit "en") (voice_lang voice)) voices)
    as [v2|] eqn:E2.
  { apply find_some in E2. destruct E2 as (Hin & Hl).
    split; [|split].
    - split; [discriminate | intros ->; destruct Hin].
    - intros v [= <-]. exact Hin.
    - intros v [= <-] _. left. exact Hl. }
  split; [|split].
  - destruct voices; [split; reflexivity | split; discriminate].
  - intros v Hv. destruct voices as [|w ws]; [discriminate Hv|].
    injection Hv as <-. left. reflexivity.
  - intros v _ Hex. exfalso. apply List.Exists_exists in Hex. destruct Hex as (w & Hin & Hw).
    pose proof (find_none _ _ E2 w Hin) as Hn. cbn beta in Hn. congruence.
Qed.

(** With the lower case of ASCII: a voice with a preferred name is chosen
    over English voices listed before it, and without one the first voice
    of en-US, whatever precedes it. *)
Example bestVoice_ex :
  bestVoice ascii_toLowerCase [amelie; daniel; zira] = Some zira
  /\ bestVoice ascii_toLowerCase
       [amelie; daniel; {| voice_name := lit "Aria"; voice_lang := lit "en-US" |}]
     = Some {| voice_name := lit "Aria"; voice_lang := lit "en-US" |}
  /\ bestVoice ascii_toLowerCase [amelie] = Some amelie.
Proof. vm_compute. repeat split. Qed.

(** X13.  The voice menu: choosing the name of a listed voice selects the
    first voice of that name (the voice itself when names are not shared);
    a value that is no voice's name selects no voice, after which nothing
    is spoken. *)
Theorem voiceMenu_onChange_spec (availableVoices : list Voice) (value : jsstring) :
  (forall v, In v availableVoices -> voice_name v = value ->
     exists before w after,
       availableVoices = before ++ w :: after
       /\ Forall (fun u => voice_name u <> value) before
       /\ voice_name w = value
       /\ voiceMenu_onChange availableVoices value = Some w
       /\ In w availableVoices
       /\ (List.NoDup (map voice_name availableVoices) -> w = v))
  /\ ((forall v, In v availableVoices -> voice_name v <> value) ->
      voiceMenu_onChange availableVoices value = None)
  /\ (voiceMenu_onChange availableVoices value = None ->
      forall c s x, VI.speakText
                      (VI.render (VI.c_sessionId c)
                         (exec (VI.setSelectedVoice (voiceMenu_onChange availableVoices value)) s))
                      x s = (s, Normal tt)).
Proof.
  unfold voiceMenu_onChange. split; [|split].
  - induction availableVoices as [|a l IH]; intros v Hin Hv; [destruct Hin|].
    cbn [find]. destruct (str_eqb (voice_name a) value) eqn:E.
    + unfold str_eqb in E. apply bool_decide_eq_true in E.
      exists [], a, l. split; [reflexivity|]. split; [constructor|]. split; [exact E|].
      split; [reflexivity|]. split; [left; reflexivity|].
      intros Hnd. destruct Hin as [-> | Hin]; [reflexivity|].
      cbn [map] in Hnd. apply List.NoDup_cons_iff in Hnd. destruct Hnd as [Hnot _].
      exfalso. apply Hnot. rewrite E, <- Hv. apply in_map. exact Hin.
    + unfold str_eqb in E. apply bool_decide_eq_false in E.
      destruct Hin as [-> | Hin]; [contradiction|].
      destruct (IH v Hin Hv) as (before & w & after & Hl & Hb & Hname & Hw & Hwin & Hnd).
      exists (a :: before), w, after.
      split; [cbn; f_equal; exact Hl|]. split; [constructor; assumption|].
      split; [exact Hname|]. split; [exact Hw|]. split; [right; exact Hwin|].
      intros Hnd'. apply Hnd. cbn [map] in Hnd'. apply List.NoDup_cons_iff in Hnd'. apply Hnd'.
  - intros H. induction availableVoices as [|a l IH]; [reflexivity|].
    cbn [find]. rewrite (str_eqb_neq _ _ (H a (or_introl eq_refl))).
    apply IH. intros v Hv. apply H. right. exact Hv.
  - intros H c s x. rewrite H.
    apply VI_speakText_without_voice. reflexivity.
Qed.

(** Two voices share the name "Daniel": choosing the second selects the
    first. *)
Lemma voiceMenu_onChange_spec_witness :
  let daniel_us := {| voice_name := lit "Daniel"; voice_lang := lit "en-US" |} in
  exists before w after,
    [amelie; daniel; zira; daniel_us] = before ++ w :: after
    /\ Forall (fun u => voice_name u <> lit "Daniel") before
    /\ voice_name w = lit "Daniel"
    /\ voiceMenu_onChange [amelie; daniel; zira; daniel_us] (lit "Daniel") = Some w
    /\ In w [amelie; daniel; zira; daniel_us]
    /\ (List.NoDup (map voice_name [amelie; daniel; zira; daniel_us]) -> w = daniel_us).
Proof.
  intros daniel_us.
  apply (voiceMenu_onChange_spec [amelie; daniel; zira; daniel_us] (lit "Daniel")).
  - right. right. right. left. reflexivity.
  - reflexivity.
Defined.

Example voiceMenu_onChange_ex :
  voiceMenu_onChange
    [amelie; daniel; zira; {| voice_name := lit "Daniel"; voice_lang := lit "en-US" |}]
    (lit "Daniel") = Some daniel
  /\ voiceMenu_onChange [amelie; daniel; zira] (lit "Samantha") = None.
Proof. vm_compute. split; reflexivity. Qed.

(** X14.  The voice of the RealTimeVoiceChat: none only when the
    synthesizer has none; always one of the synthesizer's; English
    whenever an English voice is there. *)
Theorem englishVoice_sound (voices : list Voice) :
  (RT.englishVoice voices = None <-> voices = [])
  /\ (forall v, RT.englishVoice voices = Some v -> In v voices)
  /\ (forall v, RT.englishVoice voices = Some v ->
        Exists (fun w => startsWith (lit "en") (voice_lang w) = true) voices ->
        startsWith (lit "en") (voice_lang v) = true).
Proof.
  unfold RT.englishVoice.
  destruct (find (fun v => startsWith (lit "en") (voice_lang v)) voices) as [v0|] eqn:E.
  - apply find_some in E. destruct E as (Hin & Hl). split; [|split].
    + split; [discriminate | intros ->; destruct Hin].
    + intros v [= <-]. exact Hin.
    + intros v [= <-] _. exact Hl.
  - split; [|split].
    + destruct voices; [split; reflexivity | split; discriminate].
    + intros v Hv. destruct voices as [|w ws]; [discriminate Hv|].
      injection Hv as <-. left. reflexivity.
    + intros v _ Hex. exfalso. apply List.Exists_exists in Hex. destruct Hex as (w & Hin & Hw).
      pose proof (find_none _ _ E w Hin) as Hn. cbn beta in Hn. congruence.
Qed.

(** ** The agent status panel *)

(** X15.  A capability is shown with its first underscore turned into a
    space, the others stay; without an underscore it is shown as it is.
    The length never changes. *)
Theorem replace_first_underscore (s : jsstring) :
  length (AgentStatusIndicator.replace_first 95 (lit " ") s) = length s
  /\ (~ In 95 s -> AgentStatusIndicator.replace_first 95 (lit " ") s = s)
  /\ (In 95 s ->
      exists a b, s = a ++ 95 :: b /\ ~ In 95 a
                  /\ AgentStatusIndicator.replace_first 95 (lit " ") s = a ++ 32 :: b).
Proof.
  change (lit " ") with [32]. split; [|split].
  - induction s as [|c s IH]; [reflexivity|].
    cbn [AgentStatusIndicator.replace_first]. destruct (c =? 95); cbn; [reflexivity|].
    f_equal. exact IH.
  - induction s as [|c s IH]; intros H; [reflexivity|].
    cbn [AgentStatusIndicator.replace_first].
    destruct (N.eqb_spec c 95) as [->|Hc]; [exfalso; apply H; left; reflexivity|].
    f_equal. apply IH. intros Hin. apply H. right. exact Hin.
  - induction s as [|c s IH]; intros H; [destruct H|].
    cbn [AgentStatusIndicator.replace_first].
    destruct (N.eqb_spec c 95) as [->|Hc].
    + exists [], s. repeat split. intros [].
    + destruct H as [H|H]; [congruence|].
      destruct (IH H) as (a & b & Hs & Ha & Hr).
      exists (c :: a), b. split; [cbn; f_equal; exact Hs|]. split.
      * intros [Hin|Hin]; [congruence | exact (Ha Hin)].
      * cbn. f_equal. exact Hr.
Qed.

Example capabilityChips_ex :
  AgentStatusIndicator.capabilityChips
    [lit "web_search_api"; lit "analysis"; lit "code_review"; lit "planning"; lit "memory"]
  = [lit "web search_api"; lit "analysis"; lit "code review"]
  /\ AgentStatusIndicator.moreChip
       [lit "web_search_api"; lit "analysis"; lit "code_review"; lit "planning"; lit "memory"]
     = Some 2%nat.
Proof. vm_compute. repeat split. Qed.

(** X16.  At most three capabilities are shown, the first three in their
    order; the [+n more] chip appears exactly when there are more than
    three, and then shown and counted capabilities add up to all. *)
Theorem capability_chips_count (capabilities : list jsstring) :
  length (AgentStatusIndicator.capabilityChips capabilities)
    = Nat.min 3 (length capabilities)
  /\ (AgentStatusIndicator.moreChip capabilities = None <-> (length capabilities <= 3)%nat)
  /\ (forall n, AgentStatusIndicator.moreChip capabilities = Some n ->
        (0 < n)%nat
        /\ (length (AgentStatusIndicator.capabilityChips capabilities) + n)%nat
           = length capabilities)
  /\ (forall i c, capabilities !! i = Some c -> (i < 3)%nat ->
        AgentStatusIndicator.capabilityChips capabilities !! i
        = Some (AgentStatusIndicator.replace_first 95 (lit " ") c)).
Proof.
  unfold AgentStatusIndicator.capabilityChips, AgentStatusIndicator.moreChip.
  assert (Hlen : length (map (AgentStatusIndicator.replace_first 95 (lit " "))
                           (take 3 capabilities)) = Nat.min 3 (length capabilities)).
  { rewrite length_map, length_take. reflexivity. }
  split; [exact Hlen|]. split; [|split].
  - destruct (Nat.ltb_spec 3 (length capabilities)); split;
      intros; try discriminate; try reflexivity; lia.
  - intros n. destruct (Nat.ltb_spec 3 (length capabilities)); [|discriminate].
    intros [= <-]. rewrite Hlen. lia.
  - intros i c Hi Hlt. rewrite list_lookup_fmap, lookup_take_lt by exact Hlt.
    rewrite Hi. reflexivity.
Qed.

(** X17.  Every role but the four known ones, letter for letter, is shown
    as a plain "Agent". *)
Theorem getAgentInfo_default (role : jsstring) :
  AgentStatusIndicator.name (AgentStatusIndicator.getAgentInfo role) = lit "Agent"
  <-> ~ In role [lit "coordinator"; lit "researcher"; lit "analyzer"; lit "executor"].
Proof.
  destruct (decide (role = lit "coordinator")) as [->|H1];
    [split; [intros E; vm_compute in E; discriminate E
            | intros Hn; exfalso; apply Hn; cbn; tauto]|].
  destruct (decide (role = lit "researcher")) as [->|H2];
    [split; [intros E; vm_compute in E; discriminate E
            | intros Hn; exfalso; apply Hn; cbn; tauto]|].
  destruct (decide (role = lit "analyzer")) as [->|H3];
    [split; [intros E; vm_compute in E; discriminate E
            | intros Hn; exfalso; apply Hn; cbn; tauto]|].
  destruct (decide (role = lit "executor")) as [->|H4];
    [split; [intros E; vm_compute in E; discriminate E
            | intros Hn; exfalso; apply Hn; cbn; tauto]|].
  unfold AgentStatusIndicator.getAgentInfo.
  rewrite !str_eqb_neq by assumption. split; [|reflexivity].
  intros _ [E|[E|[E|[E|[]]]]]; congruence.
Qed.

(** ** The main button of the RealTimeVoiceChat *)

(** X18.  While its render is not processing, the button does what its
    caption says: STOP stops capture, SPEAKING stops playback, TALK starts
    capture.  While its render is processing the button does nothing,
    whatever the caption. *)
Theorem caption_matches_action (c : RT.Closure) (s : RT.Store) :
  (RT.c_isProcessing c = false ->
     (RT_buttonCaption c = lit "STOP" -> RT.mainButton_onClick c s = RT.stopListening c s)
     /\ (RT_buttonCaption c = lit "SPEAKING" -> RT.mainButton_onClick c s = RT.stopSpeaking s)
     /\ (RT_buttonCaption c = lit "TALK" -> RT.mainButton_onClick c s = RT.startListening c s)
     /\ RT_buttonCaption c <> lit "THINKING")
  /\ (RT.c_isProcessing c = true -> RT.mainButton_onClick c s = (s, Normal tt)).
Proof.
  unfold RT_buttonCaption, RT.mainButton_onClick, RT.toggleVoiceChat.
  destruct (RT.c_isProcessing c), (RT.c_isListening c), (RT.c_isSpeaking c);
    (split; [intros Hp; try discriminate Hp; repeat split; intros H;
             try reflexivity; vm_compute in H; discriminate H
            | intros Hp; try discriminate Hp; reflexivity]).
Qed.

Lemma caption_matches_action_witness :
  RT.mainButton_onClick (RT.render sid rt_speaking) rt_speaking = RT.stopSpeaking rt_speaking.
Proof.
  apply (caption_matches_action (RT.render sid rt_speaking) rt_speaking); reflexivity.
Defined.

(** ** Invariants of the RealTimeVoiceChat *)

(** [speakText] leaves at most one utterance in the queue, whatever it is
    given and whether or not it throws. *)
Lemma RT_speakText_queue (c : RT.Closure) (x : JSValue) (s : RT.Store) :
  (queue_length (RT.synthRef s) <= 1)%nat ->
  (queue_length (RT.synthRef (exec (RT.speakText c x) s)) <= 1)%nat
  /\ RT.isProcessing (exec (RT.speakText c x) s) = RT.isProcessing s.
Proof.
  intros H. unfold RT.speakText, RT.synth_cancel, RT.synth_speak, RT.call, RT.setSynth,
    RT.setIsSpeaking.
  destruct s as [? ? ? ? ? ? ? ? [y|] cs]; [|split; [exact H | reflexivity]].
  act. destruct (call_trim x) as [t|e]; [|split; [exact H | reflexivity]].
  cbn -[trim RT.englishVoice].
  destruct (is_empty t); cbn -[RT.englishVoice]; split; auto.
Qed.

Lemma RT_resume_inv (engine : EngineError -> jsstring) (c : RT.Closure) (date : N)
    (o : FetchOutcome) (s : RT.Store) :
  (queue_length (RT.synthRef s) <= 1)%nat ->
  (queue_length (RT.synthRef (exec (RT.processVoiceInput_resume engine c date o) s)) <= 1)%nat
  /\ RT.isProcessing (exec (RT.processVoiceInput_resume engine c date o) s) = false.
Proof.
  intros H. unfold RT.processVoiceInput_resume.
  unfold RT.setConversation, RT.setIsProcessing, RT.setAiResponse, RT.setError.
  act.
  assert (Herr : forall (e : Thrown) (s0 : RT.Store),
            (queue_length (RT.synthRef s0) <= 1)%nat ->
            (queue_length
               (RT.synthRef
                  (fst (RT.speakText c
                          (JStr (lit "Sorry, I encountered an error: " ++ error_message engine e))
                          {| RT.isListening := RT.isListening s0;
                             RT.isProcessing := RT.isProcessing s0;
                             RT.isSpeaking := RT.isSpeaking s0;
                             RT.transcript := RT.transcript s0;
                             RT.aiResponse := RT.aiResponse s0;
                             RT.conversation := RT.conversation s0;
                             RT.error := lit "Sorry, I encountered an error: "
                                         ++ error_message engine e;
                             RT.recognitionRef := RT.recognitionRef s0;
                             RT.synthRef := RT.synthRef s0;
                             RT.calls := RT.calls s0 |}))) <= 1)%nat).
  { intros e s0 H0. apply (RT_speakText_queue c _ _). exact H0. }
  destruct o as [e|r]; cbn -[RT.speakText lit].
  - specialize (Herr e s H). destruct (RT.speakText c _ _) as [s2 [|]]; split; auto.
  - destruct (ok r); cbn -[RT.speakText lit].
    + destruct (json r) as [v|e]; cbn -[RT.speakText lit summary_or].
      * destruct (summary_or v _) as [a|e]; cbn -[RT.speakText lit].
        -- match goal with
           | |- context [RT.speakText c a ?s1] =>
               pose proof (RT_speakText_queue c a s1 H) as [Hq _];
               unfold exec in Hq; destruct (RT.speakText c a s1) as [s2 [|e]]
           end; cbn -[RT.speakText lit] in *; [split; auto|].
           specialize (Herr e s2 Hq).
           destruct (RT.speakText c _ _) as [s3 [|]]; split; auto.
        -- specialize (Herr e s H). destruct (RT.speakText c _ _) as [s2 [|]]; split; auto.
      * specialize (Herr e s H). destruct (RT.speakText c _ _) as [s2 [|]]; split; auto.
    + specialize (Herr (ErrorObj (lit "HTTP " ++ decimal (status r))) s H).
      cbn [error_message] in Herr.
      destruct (RT.speakText c _ _) as [s2 [|]]; split; auto.
Qed.


Lemma RT_step_inv (engine : EngineError -> jsstring) (sessionId : jsstring) (binding : Binding)
    (w : RT.World) (e : RT.Event) :
  (queue_length (RT.synthRef (RT.store w)) <= 1)%nat
  /\ (RT.awaiting w = [] -> RT.isProcessing (RT.store w) = false) ->
  (queue_length (RT.synthRef (RT.store (RT.step engine sessionId binding w e))) <= 1)%nat
  /\ (RT.awaiting (RT.step engine sessionId binding w e) = [] ->
      RT.isProcessing (RT.store (RT.step engine sessionId binding w e)) = false).
Proof.
  intros [Hq Hp]. destruct w as [s aw us ts]. cbn [RT.store RT.awaiting] in *.
  destruct e; cbn [RT.step RT.store RT.awaiting RT.utterances RT.timers RT.with_store].
  - (* Click_mainButton *)
    unfold RT.mainButton_onClick, RT.toggleVoiceChat, RT.stopListening, RT.stopSpeaking,
      RT.startListening, RT.recognition_start, RT.recognition_stop, RT.synth_cancel,
      RT.call, RT.setSynth, RT.setIsSpeaking, RT.setTranscript, RT.setError, RT.setRecognition,
      RT.render.
    destruct s as [l p k ? ? ? ? [[[|]]|] [y|] cs]; act; cbn in Hq, Hp |- *;
      destruct l, p, k; cbn; split; auto; lia.
  - (* Click_stopSpeaking *)
    unfold RT.stopSpeaking, RT.synth_cancel, RT.call, RT.setSynth, RT.setIsSpeaking.
    destruct s as [l p k ? ? ? ? ? [y|] cs]; act; cbn in Hq, Hp |- *;
      destruct k; cbn; split; auto; lia.
  - (* Click_clear *) split; [exact Hq | exact Hp].
  - (* Rec_start *) split; [exact Hq | exact Hp].
  - (* Rec_result *)
    unfold RT.recognition_onresult, RT.processVoiceInput, RT.stopListening, RT.recognition_stop,
      RT.callback_closure, RT.setTranscript, RT.setIsProcessing, RT.setConversation, RT.call.
    destruct (negb (is_empty (finalTranscript results))); [|split; [exact Hq | exact Hp]].
    set (c := match binding with Mount => _ | Latest => _ end). clearbody c.
    destruct (is_empty (trim (finalTranscript results)) || RT.c_isProcessing c).
    + split; [exact Hq | exact Hp].
    + act.
      match goal with |- context [if ?b then _ else _] => destruct b end;
        cbn; (split; [exact Hq | intros Haw; destruct aw; discriminate Haw]).
  - (* Rec_end *)
    unfold RT.recognition_ended, RT.recognition_onend, RT.setRecognition, RT.setIsListening.
    act. destruct (RT.recognitionRef s); split; auto.
  - (* Rec_error *) split; [exact Hq | exact Hp].
  - (* Fetch_settled *)
    destruct aw as [|c rest]; [split; [exact Hq | exact Hp]|].
    cbn [RT.store RT.awaiting].
    destruct (RT_resume_inv engine c date o s Hq) as [H1 H2]. split; [exact H1 | intros _; exact H2].
  - (* Utt_start *) split; [exact Hq | exact Hp].
  - (* Utt_end *)
    destruct us as [|c rest]; [split; [exact Hq | exact Hp]|].
    cbn [RT.store RT.awaiting].
    unfold RT.utterance_done, RT.utterance_onend, RT.setSynth, RT.setIsSpeaking, RT.call.
    destruct s as [? ? ? ? ? ? ? ? [[[|u q] vs]|] cs]; act; cbn in Hq, Hp |- *; split; auto; lia.
  - (* Utt_error *)
    destruct us as [|c rest]; [split; [exact Hq | exact Hp]|].
    cbn [RT.store RT.awaiting].
    unfold RT.utterance_done, RT.utterance_onerror, RT.setSynth, RT.setIsSpeaking.
    destruct s as [? ? ? ? ? ? ? ? [[[|u q] vs]|] cs]; act; cbn in Hq, Hp |- *; split; auto; lia.
  - (* Timer_fires *)
    destruct ts as [|c rest]; [split; [exact Hq | exact Hp]|].
    cbn [RT.store RT.awaiting].
    unfold RT.resume_timer, RT.startListening, RT.recognition_start,
      RT.call, RT.setTranscript, RT.setError, RT.setRecognition.
    destruct s as [? ? ? ? ? ? ? [[[|]]|] ? cs], c as [? [|] [|] ?];
      act; cbn in Hq, Hp |- *; split; auto.
Qed.

Lemma RT_run_inv (engine : EngineError -> jsstring) (sessionId : jsstring) (binding : Binding)
    (events : list RT.Event) (w : RT.World) :
  (queue_length (RT.synthRef (RT.store w)) <= 1)%nat
  /\ (RT.awaiting w = [] -> RT.isProcessing (RT.store w) = false) ->
  let w' := RT.run engine sessionId binding w events in
  (queue_length (RT.synthRef (RT.store w')) <= 1)%nat
  /\ (RT.awaiting w' = [] -> RT.isProcessing (RT.store w') = false).
Proof.
  revert w. induction events as [|e events IH]; intros w H; [exact H|].
  cbn [RT.run fold_left]. apply IH, RT_step_inv, H.
Qed.

(** X19.  Whatever the user and the platform do, and whichever render the
    recognition callbacks belong to, the synthesizer of the
    RealTimeVoiceChat never holds more than one utterance: a new utterance
    always replaces the one that plays. *)
Theorem RT_one_utterance (engine : EngineError -> jsstring) (sessionId : jsstring)
    (binding : Binding) (voices : list Voice) (events : list RT.Event) :
  (queue_length (RT.synthRef (RT.store (RT.run engine sessionId binding (RT.boot voices) events)))
   <= 1)%nat.
Proof.
  apply (RT_run_inv engine sessionId binding events (RT.boot voices)).
  split; [cbn; lia | reflexivity].
Qed.

(** X20.  The RealTimeVoiceChat is never left processing: once every
    request has been answered or has failed, the processing flag is clear,
    whatever happened in between. *)
Theorem RT_not_stuck_processing (engine : EngineError -> jsstring) (sessionId : jsstring)
    (binding : Binding) (voices : list Voice) (events : list RT.Event) :
  let w := RT.run engine sessionId binding (RT.boot voices) events in
  RT.awaiting w = [] -> RT.isProcessing (RT.store w) = false.
Proof.
  apply (RT_run_inv engine sessionId binding events (RT.boot voices)).
  split; [cbn; lia | reflexivity].
Qed.

Lemma RT_not_stuck_processing_witness :
  RT.isProcessing
    (RT.store (RT.run v8 sid Latest (RT.boot [zira])
                 [ RT.Click_mainButton; RT.Rec_start;
                   RT.Rec_result 1000 (final "What is the weather"); RT.Rec_end;
                   RT.Fetch_settled 1500 (Resolved unavailable) ])) = false.
Proof.
  apply (RT_not_stuck_processing v8 sid Latest [zira]). reflexivity.
Defined.

(** ** Invariants of the VoiceInterface *)

Lemma VI_speakText_queue (c : VI.Closure) (x : JSValue) (s : VI.Store) :
  (queue_length (VI.synthRef s) <= 1)%nat ->
  (queue_length (VI.synthRef (exec (VI.speakText c x) s)) <= 1)%nat
  /\ VI.isProcessing (exec (VI.speakText c x) s) = VI.isProcessing s.
Proof.
  intros H. unfold VI.speakText, VI.synth_cancel, VI.synth_speak, VI.call, VI.setSynth,
    VI.setIsSpeaking.
  destruct s as [? ? ? ? ? ? ? ? ? ? ? [y|] cs], c as [? ? ? ? ? [v|] ? ?];
    try (split; [exact H | reflexivity]).
  act. cbn [VI.synthRef VI.c_selectedVoice]. 
  destruct (call_trim x) as [t|e]; [|split; [exact H | reflexivity]].
  cbn -[trim cleanText].
  destruct (is_empty t); cbn -[cleanText]; split; auto.
Qed.

(** One step through a guarded call of [speakText] in a goal. *)
Ltac VI_speak_step H Hq :=
  match goal with
  | |- context [(if ?b then VI.speakText ?c ?x else ?k) ?s1] =>
      assert (Hq : (queue_length
                      (VI.synthRef (fst ((if b then VI.speakText c x else k) s1))) <= 1)%nat)
        by (destruct b; [apply (VI_speakText_queue c x s1); exact H | exact H]);
      destruct ((if b then VI.speakText c x else k) s1) as [? [|?]]
  end.

Lemma VI_resume_inv (engine : EngineError -> jsstring) (p : VI.Pending)
    (o : FetchOutcome) (s : VI.Store) :
  (queue_length (VI.synthRef s) <= 1)%nat ->
  (queue_length (VI.synthRef (exec (VI.processUserInput_resume engine p o) s)) <= 1)%nat
  /\ VI.isProcessing (exec (VI.processUserInput_resume engine p o) s) = false.
Proof.
  intros H. unfold VI.processUserInput_resume.
  unfold VI.setConversation, VI.setIsProcessing, VI.setError, VI.call.
  act.
  destruct o as [e|r]; cbn -[VI.speakText lit VI.resolve_entry].
  - VI_speak_step H Hq; split; auto.
  - destruct (ok r); cbn -[VI.speakText lit VI.resolve_entry].
    + destruct (json r) as [v|e]; cbn -[VI.speakText lit summary_or VI.resolve_entry].
      * destruct (summary_or v _) as [a|e]; cbn -[VI.speakText lit VI.resolve_entry].
        -- VI_speak_step H Hq; cbn -[VI.speakText lit VI.resolve_entry] in *; [split; auto|].
           VI_speak_step Hq Hq'; split; auto.
        -- VI_speak_step H Hq; split; auto.
      * VI_speak_step H Hq; split; auto.
    + VI_speak_step H Hq; split; auto.
Qed.


Lemma VI_step_inv (url : option jsstring) (engine : EngineError -> jsstring)
    (sessionId : jsstring) (binding : Binding) (w : VI.World) (e : VI.Event) :
  (queue_length (VI.synthRef (VI.store w)) <= 1)%nat
  /\ (VI.awaiting w = [] -> VI.isProcessing (VI.store w) = false) ->
  (queue_length (VI.synthRef (VI.store (VI.step url engine sessionId binding w e))) <= 1)%nat
  /\ (VI.awaiting (VI.step url engine sessionId binding w e) = [] ->
      VI.isProcessing (VI.store (VI.step url engine sessionId binding w e)) = false).
Proof.
  intros [Hq Hp]. destruct w as [s aw m]. cbn [VI.store VI.awaiting] in *.
  destruct e; cbn [VI.step VI.store VI.awaiting VI.media_requests].
  - (* Click_mainButton *)
    unfold VI.mainButton_onClick, VI.stopListening, VI.startListening, VI.recognition_stop,
      VI.call, VI.render.
    destruct s as [l p k ? ? ? ? ? ? ? [r|] ? cs]; act; cbn in Hq, Hp |- *;
      destruct l, p; cbn; split; auto.
  - (* Click_stopSpeaking *)
    unfold VI.stopSpeaking, VI.synth_cancel, VI.call, VI.setSynth, VI.setIsSpeaking.
    destruct s as [l p k ? ? ? ? ? ? ? ? [y|] cs]; act; cbn in Hq, Hp |- *;
      destruct k; cbn; split; auto; lia.
  - (* Click_clear *)
    unfold VI.clearConversation, VI.stopListening, VI.stopSpeaking, VI.recognition_stop,
      VI.synth_cancel, VI.call, VI.setSynth, VI.setIsSpeaking, VI.setConversation,
      VI.setCurrentTranscript, VI.setError, VI.render.
    destruct s as [l p k ? ? ? ? ? ? ? [r|] [y|] cs]; act; cbn in Hq, Hp |- *;
      destruct l; cbn; split; auto; lia.
  - (* Media_settled *)
    destruct m as [|n]; [split; [exact Hq | exact Hp]|].
    cbn [VI.store VI.awaiting].
    unfold VI.startListening_resume, VI.recognition_start, VI.call, VI.setRecognition,
      VI.setError, VI.setPermissionGranted.
    destruct s as [? ? ? ? ? ? ? ? ? ? [[[|]]|] ? cs], granted; act; cbn in Hq, Hp |- *;
      split; auto.
  - (* Rec_start *) split; [exact Hq | exact Hp].
  - (* Rec_result *)
    unfold VI.recognition_onresult, VI.processUserInput, VI.callback_closure,
      VI.setCurrentTranscript, VI.setIsProcessing, VI.setConversation, VI.call.
    set (c := match binding with Mount => _ | Latest => _ end). clearbody c.
    destruct (negb (is_empty (finalTranscript results))); [|split; [exact Hq | exact Hp]].
    destruct (is_empty (trim (trim (finalTranscript results)))).
    + split; [exact Hq | exact Hp].
    + split; [exact Hq | intros Haw; destruct aw; discriminate Haw].
  - (* Rec_end *)
    unfold VI.recognition_ended, VI.recognition_onend, VI.setRecognition, VI.setIsListening.
    act. destruct (VI.recognitionRef s); split; auto.
  - (* Rec_error *)
    unfold VI.recognition_onerror.
    repeat match goal with |- context [if ?b then _ else _] => destruct b end;
      split; auto.
  - (* Fetch_settled *)
    destruct aw as [|p rest]; [split; [exact Hq | exact Hp]|].
    cbn [VI.store VI.awaiting].
    destruct (VI_resume_inv engine p o s Hq) as [H1 H2]. split; [exact H1 | intros _; exact H2].
  - (* Utt_start *) split; [exact Hq | exact Hp].
  - (* Utt_end *)
    unfold VI.utterance_done, VI.utterance_onend, VI.setSynth, VI.setIsSpeaking.
    destruct s as [? ? ? ? ? ? ? ? ? ? ? [[[|u q] vs]|] cs]; act; cbn in Hq, Hp |- *;
      split; auto; lia.
  - (* Utt_error *)
    unfold VI.utterance_done, VI.utterance_onerror, VI.setSynth, VI.setIsSpeaking, VI.setError.
    destruct s as [? ? ? ? ? ? ? ? ? ? ? [[[|u q] vs]|] cs]; act; cbn in Hq, Hp |- *;
      split; auto; lia.
  - (* Voice_selected *) split; [exact Hq | exact Hp].
Qed.

Lemma VI_run_inv (url : option jsstring) (engine : EngineError -> jsstring)
    (sessionId : jsstring) (binding : Binding) (events : list VI.Event) (w : VI.World) :
  (queue_length (VI.synthRef (VI.store w)) <= 1)%nat
  /\ (VI.awaiting w = [] -> VI.isProcessing (VI.store w) = false) ->
  let w' := VI.run url engine sessionId binding w events in
  (queue_length (VI.synthRef (VI.store w')) <= 1)%nat
  /\ (VI.awaiting w' = [] -> VI.isProcessing (VI.store w') = false).
Proof.
  revert w. induction events as [|e events IH]; intros w H; [exact H|].
  cbn [VI.run fold_left]. apply IH, VI_step_inv, H.
Qed.

(** X21.  The same holds for the VoiceInterface: its synthesizer never
    holds more than one utterance, and once every request has settled the
    processing flag is clear (so the microphone button is enabled again),
    for every sequence of clicks and platform events. *)
Theorem VI_one_utterance_and_not_stuck
    (url : option jsstring) (engine : EngineError -> jsstring) (sessionId : jsstring)
    (binding : Binding) (voices : list Voice) (events : list VI.Event) :
  let w := VI.run url engine sessionId binding (VI.boot voices) events in
  (queue_length (VI.synthRef (VI.store w)) <= 1)%nat
  /\ (VI.awaiting w = [] -> VI.isProcessing (VI.store w) = false).
Proof.
  apply (VI_run_inv url engine sessionId binding events (VI.boot voices)).
  split; [cbn; lia | reflexivity].
Qed.


(** ** The VoiceInterface with the callbacks of its first render *)

Lemma VI_resume_quiet (engine : EngineError -> jsstring) (p : VI.Pending)
    (o : FetchOutcome) (s : VI.Store) :
  VI.c_selectedVoice (VI.p_closure p) = None ->
  forallb silent_without_context (VI.calls s) = true ->
  forallb silent_without_context (VI.calls (exec (VI.processUserInput_resume engine p o) s)) = true.
Proof.
  intros Hv Hc. unfold VI.processUserInput_resume.
  unfold VI.setConversation, VI.setIsProcessing, VI.setError, VI.call.
  act. rewrite Hv.
  rewrite (bool_decide_eq_false_2 (is_Some None)) by (intros [? [=]]).
  assert (Hc' : forallb silent_without_context (VI.calls s ++ [ConsoleError]) = true)
    by (rewrite forallb_app, Hc; reflexivity).
  destruct o as [e|r]; cbn -[VI.speakText lit VI.resolve_entry].
  - rewrite andb_false_r. exact Hc'.
  - destruct (ok r); cbn -[VI.speakText lit VI.resolve_entry].
    + destruct (json r) as [v|e]; cbn -[VI.speakText lit summary_or VI.resolve_entry].
      * destruct (summary_or v _) as [a|e]; cbn -[VI.speakText lit VI.resolve_entry].
        -- rewrite andb_false_r. exact Hc.
        -- rewrite andb_false_r. exact Hc'.
      * rewrite andb_false_r. exact Hc'.
    + rewrite andb_false_r. exact Hc'.
Qed.

Lemma VI_step_mount (url : option jsstring) (engine : EngineError -> jsstring)
    (sessionId : jsstring) (w : VI.World) (e : VI.Event) :
  forallb silent_without_context (VI.calls (VI.store w)) = true
  /\ Forall (fun p => VI.c_selectedVoice (VI.p_closure p) = None) (VI.awaiting w) ->
  forallb silent_without_context
    (VI.calls (VI.store (VI.step url engine sessionId Mount w e))) = true
  /\ Forall (fun p => VI.c_selectedVoice (VI.p_closure p) = None)
       (VI.awaiting (VI.step url engine sessionId Mount w e)).
Proof.
  intros [Hc Ha]. destruct w as [s aw m]. cbn [VI.store VI.awaiting] in *.
  destruct e; cbn [VI.step VI.store VI.awaiting VI.media_requests].
  - (* Click_mainButton *)
    unfold VI.mainButton_onClick, VI.stopListening, VI.startListening, VI.recognition_stop,
      VI.call, VI.render.
    destruct s as [l p k ? ? ? ? ? ? ? [r|] ? cs]; act; cbn in Hc |- *;
      destruct l, p; cbn; split; auto; rewrite forallb_app, Hc; reflexivity.
  - (* Click_stopSpeaking *)
    unfold VI.stopSpeaking, VI.synth_cancel, VI.call, VI.setSynth, VI.setIsSpeaking.
    destruct s as [l p k ? ? ? ? ? ? ? ? [y|] cs]; act; cbn in Hc |- *;
      destruct k; cbn; split; auto; rewrite forallb_app, Hc; reflexivity.
  - (* Click_clear *)
    unfold VI.clearConversation, VI.stopListening, VI.stopSpeaking, VI.recognition_stop,
      VI.synth_cancel, VI.call, VI.setSynth, VI.setIsSpeaking, VI.setConversation,
      VI.setCurrentTranscript, VI.setError, VI.render.
    destruct s as [l p k ? ? ? ? ? ? ? [r|] [y|] cs]; act; cbn in Hc |- *;
      destruct l; cbn; split; auto; rewrite ?forallb_app, Hc; reflexivity.
  - (* Media_settled *)
    destruct m as [|n]; [split; [exact Hc | exact Ha]|].
    cbn [VI.store VI.awaiting].
    unfold VI.startListening_resume, VI.recognition_start, VI.call, VI.setRecognition,
      VI.setError, VI.setPermissionGranted.
    destruct s as [? ? ? ? ? ? ? ? ? ? [[[|]]|] ? cs], granted; act; cbn in Hc |- *;
      split; auto; rewrite forallb_app, Hc; reflexivity.
  - (* Rec_start *) split; [exact Hc | exact Ha].
  - (* Rec_result *)
    unfold VI.recognition_onresult, VI.processUserInput, VI.callback_closure,
      VI.setCurrentTranscript, VI.setIsProcessing, VI.setConversation, VI.call.
    destruct (negb (is_empty (finalTranscript results))); [|split; [exact Hc | exact Ha]].
    destruct (is_empty (trim (trim (finalTranscript results)))).
    + split; [exact Hc | exact Ha].
    + split.
      * act. cbn -[lit trim decimal VI.api_base silent_without_context].
        rewrite forallb_app, Hc. reflexivity.
      * apply Forall_app. split; [exact Ha|]. constructor; [reflexivity | constructor].
  - (* Rec_end *)
    unfold VI.recognition_ended, VI.recognition_onend, VI.setRecognition, VI.setIsListening.
    act. destruct (VI.recognitionRef s); split; auto.
  - (* Rec_error *)
    unfold VI.recognition_onerror.
    repeat match goal with |- context [if ?b then _ else _] => destruct b end;
      split; auto.
  - (* Fetch_settled *)
    destruct aw as [|p rest]; [split; [exact Hc | exact Ha]|].
    cbn [VI.store VI.awaiting].
    apply Forall_cons in Ha. destruct Ha as [Hp Hrest].
    split; [apply VI_resume_quiet; assumption | exact Hrest].
  - (* Utt_start *) split; [exact Hc | exact Ha].
  - (* Utt_end *)
    unfold VI.utterance_done, VI.utterance_onend, VI.setSynth, VI.setIsSpeaking.
    destruct s as [? ? ? ? ? ? ? ? ? ? ? [y|] cs]; act; cbn in Hc |- *; split; auto.
  - (* Utt_error *)
    unfold VI.utterance_done, VI.utterance_onerror, VI.setSynth, VI.setIsSpeaking, VI.setError.
    destruct s as [? ? ? ? ? ? ? ? ? ? ? [y|] cs]; act; cbn in Hc |- *; split; auto.
  - (* Voice_selected *) split; [exact Hc | exact Ha].
Qed.

(** X22.  When the recognition callbacks are those of the first render
    (they are installed once, by the mount effect), the VoiceInterface
    never hands an utterance to the synthesizer, whatever voice is
    selected later, and every request it sends carries an empty
    conversation context: the first render has no voice and no
    conversation. *)
Theorem VI_mount_never_speaks
    (url : option jsstring) (engine : EngineError -> jsstring) (sessionId : jsstring)
    (voices : list Voice) (events : list VI.Event) :
  forallb silent_without_context
    (VI.calls (VI.store (VI.run url engine sessionId Mount (VI.boot voices) events))) = true.
Proof.
  assert (H : forall w,
             forallb silent_without_context (VI.calls (VI.store w)) = true
             /\ Forall (fun p => VI.c_selectedVoice (VI.p_closure p) = None) (VI.awaiting w) ->
             forallb silent_without_context
               (VI.calls (VI.store (VI.run url engine sessionId Mount w events))) = true).
  { induction events as [|e events IH]; intros w Hw; [apply Hw|].
    cbn [VI.run fold_left]. apply IH, VI_step_mount, Hw. }
  apply H. split; [reflexivity | constructor].
Qed.

(** The same trace under both readings: with the callbacks of the first
    render nothing is spoken, with those of the render on screen the
    answer is. *)
Example VI_mount_versus_latest :
  existsb is_speak (VI.calls (VI.store (VI.run None v8 sid Mount (VI.boot [zira]) vi_trace)))
    = false
  /\ existsb is_speak (VI.calls (VI.store (VI.run None v8 sid Latest (VI.boot [zira]) vi_trace)))
     = true.
Proof. vm_compute. split; reflexivity. Qed.


(** ** The RealTimeVoiceChat with the callbacks of its first render *)

(** X23.  When the recognition callbacks are those of the first render,
    whose [isProcessing] and [isListening] are both false, every final
    transcript that is not blank is logged and sent, also while an earlier
    request is in flight, and the recognizer is not asked to stop. *)
Theorem RT_mount_dispatches_always
    (engine : EngineError -> jsstring) (sessionId : jsstring) (w : RT.World)
    (date : N) (results : list SpeechResult) :
  is_empty (trim (finalTranscript results)) = false ->
  let c := RT.render sessionId (RT.initial []) in
  let w' := RT.step engine sessionId Mount w (RT.Rec_result date results) in
  RT.awaiting w' = RT.awaiting w ++ [c]
  /\ RT.calls (RT.store w')
     = RT.calls (RT.store w)
       ++ [Fetch (lit "http://localhost:8000/api/agents/coordinate")
                 (RT.request_body c (finalTranscript results))]
  /\ RT.conversation (RT.store w')
     = RT.conversation (RT.store w)
       ++ [ {| RT.msg_type := RT.user; RT.msg_text := JStr (finalTranscript results);
               RT.msg_timestamp := date |} ].
Proof.
  intros H c w'. subst w'.
  pose proof (is_empty_trim _ H) as H0.
  destruct w as [s aw us ts].
  cbn [RT.step RT.store RT.awaiting RT.callback_closure].
  unfold RT.recognition_onresult, RT.processVoiceInput, RT.stopListening.
  rewrite H, H0. cbn [negb orb RT.render RT.initial RT.c_isProcessing RT.c_isListening].
  unfold RT.recognition_stop, RT.setTranscript, RT.setIsProcessing, RT.setConversation,
    RT.call. act.
  cbn -[lit trim finalTranscript RT.request_body bool_decide].
  rewrite andb_false_r. repeat split.
Qed.

Lemma RT_mount_dispatches_always_witness :
  let w := RT.run v8 sid Mount (RT.boot [zira])
             [ RT.Click_mainButton; RT.Rec_start; RT.Rec_result 1000 (final "first question") ] in
  RT.isProcessing (RT.store w) = true
  /\ RT.awaiting (RT.step v8 sid Mount w (RT.Rec_result 2000 (final "second question")))
     = RT.awaiting w ++ [RT.render sid (RT.initial [])].
Proof.
  intros w. split; [reflexivity|].
  apply (RT_mount_dispatches_always v8 sid w 2000 (final "second question")). reflexivity.
Defined.

(** ** What is shown *)

(** X24.  The history panel of the RealTimeVoiceChat shows the last six
    messages, in order, and all of them while there are at most six. *)
Theorem shown_conversation_is_tail (conversation : list RT.Message) :
  length (RT_shownConversation conversation) = Nat.min 6 (length conversation)
  /\ take (length conversation - 6) conversation ++ RT_shownConversation conversation
     = conversation
  /\ ((length conversation <= 6)%nat -> RT_shownConversation conversation = conversation).
Proof.
  unfold RT_shownConversation. split; [apply slice_last_length|].
  split; [apply slice_last_suffix|].
  intros H. unfold slice_last. replace (length conversation - 6)%nat with 0%nat by lia.
  reflexivity.
Qed.

(** X25.  The status line reads "Listening" exactly when the render is
    listening and shows the idle text exactly when it is neither
    listening, processing nor speaking, in both components; when the
    render is processing and speaking but not listening, the VoiceInterface
    reports processing and the RealTimeVoiceChat speaking. *)
Theorem status_line (c : VI.Closure) (c' : RT.Closure) :
  (VI_statusLabel c = lit "Listening..." <-> VI.c_isListening c = true)
  /\ (VI_statusLabel c = lit "Ready"
      <-> VI.c_isListening c = false /\ VI.c_isProcessing c = false /\ VI.c_isSpeaking c = false)
  /\ (RT_statusText c' = lit "Listening... Speak now!" <-> RT.c_isListening c' = true)
  /\ (RT_statusText c' = lit "Click to start voice conversation"
      <-> RT.c_isListening c' = false /\ RT.c_isProcessing c' = false
          /\ RT.c_isSpeaking c' = false)
  /\ (VI.c_isListening c = false -> VI.c_isProcessing c = true -> VI.c_isSpeaking c = true ->
      VI_statusLabel c = lit "Processing...")
  /\ (RT.c_isListening c' = false -> RT.c_isProcessing c' = true -> RT.c_isSpeaking c' = true ->
      RT_statusText c' = lit "AI is speaking...").
Proof.
  unfold VI_statusLabel, RT_statusText.
  destruct (VI.c_isListening c), (VI.c_isProcessing c), (VI.c_isSpeaking c),
    (RT.c_isListening c'), (RT.c_isProcessing c'), (RT.c_isSpeaking c');
    repeat split; intros; try reflexivity; try discriminate;
    repeat match goal with H : _ /\ _ |- _ => destruct H end; try discriminate;
    match goal with H : lit _ = lit _ |- _ => vm_compute in H; discriminate H end.
Qed.


(** ** The properties above at sample inputs *)

Lemma resolve_entry_keeps_shape_witness :
  let u := {| VI.entry_id := lit "user-1000"; VI.entry_type := VI.user;
              VI.entry_text := JStr (lit "What is the weather");
              VI.entry_timestamp := 1000; VI.entry_isProcessing := None |} in
  let pl := {| VI.entry_id := lit "assistant-1000"; VI.entry_type := VI.assistant;
               VI.entry_text := JStr (lit "Processing your request...");
               VI.entry_timestamp := 1000; VI.entry_isProcessing := Some true |} in
  In u (VI.resolve_entry (lit "assistant-1000") (JStr (lit "It is sunny.")) [u; pl]).
Proof.
  intros u pl.
  apply (resolve_entry_keeps_shape (lit "assistant-1000") (JStr (lit "It is sunny.")) [u; pl]).
  - left. reflexivity.
  - discriminate.
Defined.

Lemma bestVoice_sound_witness : In zira [amelie; daniel; zira].
Proof.
  apply (bestVoice_sound ascii_toLowerCase [amelie; daniel; zira]). reflexivity.
Defined.

Lemma englishVoice_sound_witness :
  startsWith (lit "en") (voice_lang daniel) = true.
Proof.
  pose proof (englishVoice_sound [amelie; daniel; zira]) as (_ & _ & H).
  apply (H daniel); [reflexivity|].
  right. left. reflexivity.
Defined.

Lemma replace_first_underscore_witness :
  exists a b, lit "web_search_api" = a ++ 95 :: b /\ ~ In 95 a
              /\ AgentStatusIndicator.replace_first 95 (lit " ") (lit "web_search_api")
                 = a ++ 32 :: b.
Proof.
  apply (replace_first_underscore (lit "web_search_api")).
  right. right. right. left. reflexivity.
Defined.

Lemma capability_chips_count_witness :
  (0 < 2)%nat
  /\ (length (AgentStatusIndicator.capabilityChips
                [lit "a_b"; lit "c"; lit "d"; lit "e"; lit "f"]) + 2)%nat = 5%nat.
Proof.
  apply (capability_chips_count [lit "a_b"; lit "c"; lit "d"; lit "e"; lit "f"]). reflexivity.
Defined.

Lemma getAgentInfo_default_witness :
  AgentStatusIndicator.name (AgentStatusIndicator.getAgentInfo (lit "Researcher")) = lit "Agent".
Proof.
  apply (getAgentInfo_default (lit "Researcher")).
  intros [H|[H|[H|[H|[]]]]]; discriminate H.
Defined.

Lemma VI_one_utterance_and_not_stuck_witness :
  VI.isProcessing
    (VI.store (VI.run None v8 sid Latest (VI.boot [zira])
                 [ VI.Voice_selected (Some zira); VI.Click_mainButton; VI.Media_settled true;
                   VI.Rec_start; VI.Rec_result (clk 1000) (final "What is the weather");
                   VI.Rec_end; VI.Fetch_settled (Resolved unavailable) ])) = false.
Proof.
  apply (VI_one_utterance_and_not_stuck None v8 sid Latest [zira]). reflexivity.
Defined.

Lemma shown_conversation_is_tail_witness :
  RT_shownConversation
    [ {| RT.msg_type := RT.user; RT.msg_text := JStr (lit "Hello"); RT.msg_timestamp := 10 |} ]
  = [ {| RT.msg_type := RT.user; RT.msg_text := JStr (lit "Hello"); RT.msg_timestamp := 10 |} ].
Proof.
  apply (shown_conversation_is_tail
           [ {| RT.msg_type := RT.user; RT.msg_text := JStr (lit "Hello");
                RT.msg_timestamp := 10 |} ]).
  cbn. lia.
Defined.

Lemma status_line_witness :
  VI_statusLabel (VI.render sid (exec (VI.setIsProcessing true) vi_speaking))
    = lit "Processing..."
  /\ RT_statusText (RT.render sid (exec (RT.setIsProcessing true) rt_speaking))
     = lit "AI is speaking...".
Proof.
  pose proof (status_line (VI.render sid (exec (VI.setIsProcessing true) vi_speaking))
                (RT.render sid (exec (RT.setIsProcessing true) rt_speaking)))
    as (_ & _ & _ & _ & H1 & H2).
  split; [apply H1; reflexivity | apply H2; reflexivity].
Defined.
